(** * Cooling-tower reading processor: shallow embedding and verification

    The development embeds [backend/theoretical_calculations.py] (the
    calculation library) and [backend/process_data.py] (the reading
    processor) and proves the behavioural properties stated for them.  It
    also embeds their callers: the message callback of [backend/main.py] and
    the persistence sink and the utilities of [backend/config.py].

    Modelling conventions.
    - A Python [float] is a binary64 number, Rocq's primitive [float]: the
      arithmetic and the comparisons are those of IEEE 754 with rounding to
      nearest, including the infinities, the signed zeros and NaN.  A decimal
      literal denotes the nearest binary64 number, as it does in Python.
    - A Python [int] is an integer of [Z]; its conversion by [float()] rounds
      it to the nearest binary64 number and raises [OverflowError] when that
      is out of range.
    - A raised exception is the [Raise] branch of [result]; [try/except] is
      a [match] on the result.
    - Functions of the Python runtime that the repository only calls
      ([math.atan], [float ** float], [round], the formatting of a float
      inside an f-string, the parsing of a string by [float()]) are the
      fields of the class [PyRuntime]; [math.sqrt] is the correctly rounded
      square root.
    - The success rate of [log_system_stats], a quotient of two counters, is
      an exact rational ([Q]).
    - Logging calls do not influence any returned value and are left out.
    - [datetime.now().isoformat()] is the argument [now] of [process_data]. *)

From Stdlib Require Import Floats ZArith QArith Lqa List Ascii.
From stdpp Require Import gmap strings.
Import ListNotations.

Set Warnings "-inexact-float".

Open Scope string_scope.
Open Scope float_scope.

(** ** Python values, exceptions and results *)

Module Py.

(** The exception classes that occur in the modules. *)
Inductive exn : Type :=
  | ValueError (msg : string)
  | TypeError (msg : string)
  | ZeroDivisionError (msg : string)
  | OverflowError (msg : string).

(** [str(e)] *)
Definition str_exn (e : exn) : string :=
  match e with
  | ValueError m | TypeError m | ZeroDivisionError m | OverflowError m => m
  end.

Inductive result (A : Type) : Type :=
  | Ok (a : A)
  | Raise (e : exn).
Arguments Ok {A} a.
Arguments Raise {A} e.

Definition bind {A B : Type} (r : result A) (k : A -> result B) : result B :=
  match r with
  | Ok a => k a
  | Raise e => Raise e
  end.

(** [try: r  except Exception as e: h e] *)
Definition try_except {A : Type} (r : result A) (h : exn -> result A) : result A :=
  match r with
  | Ok a => Ok a
  | Raise e => h e
  end.

(** [if c: raise e] *)
Definition raise_if (c : bool) (e : exn) : result unit :=
  if c then Raise e else Ok tt.

(** A decoded JSON value as [json.loads] hands it over; a number without
    fraction or exponent is an [int] of any size, the literals [NaN] and
    [Infinity] are floats.  Of an array or an object only its truth value
    (non-emptiness) matters to the processor. *)
Inductive pyval : Type :=
  | PNone
  | PBool (b : bool)
  | PInt (z : Z)
  | PFloat (f : float)
  | PStr (s : string)
  | PObj (nonempty : bool).

(** Truth value of a value, as [or] tests it; a float is false when it
    equals zero, so NaN is true. *)
Definition truthy (v : pyval) : bool :=
  match v with
  | PNone => false
  | PBool b => b
  | PInt z => negb (Z.eqb z 0)
  | PFloat f => negb (f =? 0)
  | PStr s => negb (String.eqb s "")
  | PObj nonempty => nonempty
  end.

(** [v or d] *)
Definition or_else (v d : pyval) : pyval := if truthy v then v else d.

(** [float(z)] for an [int]: the nearest binary64 number, ties to even; an
    integer that rounds beyond the largest finite number raises. *)
Definition int_to_float (z : Z) : result float :=
  let f := SF2Prim (binary_normalize prec emax z 0 false) in
  if is_infinity f then Raise (OverflowError "int too large to convert to float")
  else Ok f.

End Py.
Export Py.

(** [result] is a monad; sequencing uses stdpp's [x ← r; k] and [r;; k]. *)
#[global] Instance result_ret : MRet result := @Ok.
#[global] Instance result_bind : MBind result := fun A B k r => bind r k.

(** ** The Python runtime the repository relies on *)

Class PyRuntime : Type := {
  (** [math.atan] *)
  math_atan : float -> float;
  (** [x ** y] on floats *)
  float_pow : float -> float -> float;
  (** [round(x, ndigits)] on a float, which returns a float *)
  round : float -> nat -> float;
  (** [f"{x}"] for a float [x] *)
  float_str : float -> string;
  (** [f"{x:.nf}"] for a float [x] *)
  float_fixed : nat -> float -> string;
  (** [float(s)] for a string [s]; [None] when it raises [ValueError] *)
  float_of_string : string -> option float
}.

Section Calculations.
Context {rt : PyRuntime}.

(** [math.sqrt(x)]: a negative argument raises [ValueError]; NaN and [-0.0]
    are returned as they are. *)
Definition math_sqrt (x : float) : result float :=
  if x <? 0 then Raise (ValueError "math domain error") else Ok (sqrt x).

(** [x / y] on floats: a zero divisor raises [ZeroDivisionError]. *)
Definition float_div (x y : float) : result float :=
  if y =? 0 then Raise (ZeroDivisionError "float division by zero") else Ok (x / y).

(** [float(v)] *)
Definition py_float (v : pyval) : result float :=
  match v with
  | PNone => Raise (TypeError "float() argument must be a string or a real number, not 'NoneType'")
  | PBool b => Ok (if b then 1 else 0)
  | PInt z => int_to_float z
  | PFloat f => Ok f
  | PStr s =>
      match float_of_string s with
      | Some f => Ok f
      | None => Raise (ValueError ("could not convert string to float: " ++ s))
      end
  | PObj _ => Raise (TypeError "float() argument must be a string or a real number")
  end.

(** *** theoretical_calculations.py

    The three functions are called with floats only, on which the leading
    [float(...)] conversions are the identity.  Each body runs inside
    [try ... except Exception as e: raise ValueError(f"Cannot calculate ...: {e}")]. *)

Definition TEMPERATURE_TOLERANCE : float := 0.1.

Definition wet_bulb_stull_body (T RH : float) : result float :=
  raise_if ((RH <? 0) || (100 <? RH))
    (ValueError ("Relative humidity must be between 0-100%, got " ++ float_str RH ++ "%"));;
  raise_if ((T <? -50) || (60 <? T))
    (ValueError ("Temperature must be between -50°C to 60°C, got " ++ float_str T ++ "°C"));;
  s ← math_sqrt (RH + 8.313659);
  Ok (T * math_atan (0.151977 * s)
      + math_atan (T + RH)
      - math_atan (RH - 1.676331)
      + 0.00391838 * float_pow RH 1.5 * math_atan (0.023101 * RH)
      - 4.686035).

Definition wet_bulb_stull (temp_celsius relative_humidity : float) : result float :=
  try_except (wet_bulb_stull_body temp_celsius relative_humidity)
    (fun e => Raise (ValueError ("Cannot calculate wet bulb temperature: " ++ str_exn e))).

(** The message both calculations raise for a reversed temperature drop. *)
Definition reversed_drop_msg (T_in T_out delta_T : float) : string :=
  "Water inlet temperature (" ++ float_str T_in ++ "°C) must be higher than outlet ("
  ++ float_str T_out ++ "°C) by at least " ++ float_str TEMPERATURE_TOLERANCE
  ++ "°C. Current difference: " ++ float_fixed 3 delta_T ++ "°C".

(** [if efficiency < 0: efficiency = 0  elif efficiency > 100: efficiency = 100];
    the integers the code assigns are written as the floats equal to them. *)
Definition clamp_0_100 (efficiency : float) : float :=
  if efficiency <? 0 then 0
  else if 100 <? efficiency then 100
  else efficiency.

Definition calculate_cooling_tower_efficiency_body (T_in T_out T_wb : float) : result float :=
  let delta_T := T_in - T_out in
  raise_if (delta_T <? - TEMPERATURE_TOLERANCE)
    (ValueError (reversed_drop_msg T_in T_out delta_T));;
  if abs delta_T <=? TEMPERATURE_TOLERANCE then Ok 0.0
  else if T_in <=? T_wb then Ok 0.0
  else
    q ← float_div delta_T (T_in - T_wb);
    Ok (clamp_0_100 (q * 100)).

Definition calculate_cooling_tower_efficiency
    (water_temp_in water_temp_out wet_bulb_temp_in : float) : result float :=
  try_except
    (calculate_cooling_tower_efficiency_body water_temp_in water_temp_out wet_bulb_temp_in)
    (fun e => Raise (ValueError ("Cannot calculate cooling tower efficiency: " ++ str_exn e))).

Definition calculate_cooling_capacity_body (flow_lpm T_in T_out : float) : result float :=
  raise_if (flow_lpm <=? 0)
    (ValueError ("Water flow must be positive, got " ++ float_str flow_lpm ++ " L/min"));;
  let delta_T := T_in - T_out in
  raise_if (delta_T <? - TEMPERATURE_TOLERANCE)
    (ValueError (reversed_drop_msg T_in T_out delta_T));;
  if abs delta_T <=? TEMPERATURE_TOLERANCE then Ok 0.0
  else
    let flow_kg_s := (flow_lpm / 60) * (1000 / 1000) in
    let cp_water := 4.186 in
    Ok (flow_kg_s * cp_water * delta_T).

Definition calculate_cooling_capacity (water_flow_lpm water_temp_in water_temp_out : float)
    : result float :=
  try_except (calculate_cooling_capacity_body water_flow_lpm water_temp_in water_temp_out)
    (fun e => Raise (ValueError ("Cannot calculate cooling capacity: " ++ str_exn e))).

End Calculations.

(** ** process_data.py *)

(** The two shapes of dictionary [process_data] returns. *)
Module ProcessedReading.
Record t : Type := mk {
  device_id : pyval;
  timestamp : pyval;
  processed_at : string;
  water_flow_lpm : float;
  water_temp_in : float;
  water_temp_out : float;
  air_temp_in : float;
  air_humidity_in : float;
  wet_bulb_temp_in : option float;
  cooling_efficiency : option float;
  cooling_capacity : option float;
  calculation_errors : list string;
  data_quality : string;
  processing_status : string
}.
End ProcessedReading.

Module ErrorRecord.
Record t : Type := mk {
  error : string;
  message : string;
  timestamp : string;
  processing_status : string
}.
End ErrorRecord.

Inductive output : Type :=
  | Processed (r : ProcessedReading.t)
  | Failed (e : ErrorRecord.t).

Definition assess_data_quality
    (water_temp_in water_temp_out water_flow_lpm air_humidity_in : float) : string :=
  let quality_score := 0%Z in
  let delta_T := abs (water_temp_in - water_temp_out) in
  let quality_score :=
    if 1.0 <? delta_T then (quality_score + 3)%Z
    else if 0.5 <? delta_T then (quality_score + 2)%Z
    else if 0.1 <? delta_T then (quality_score + 1)%Z
    else quality_score in
  let quality_score :=
    if 1.0 <? water_flow_lpm then (quality_score + 2)%Z
    else if 0.1 <? water_flow_lpm then (quality_score + 1)%Z
    else quality_score in
  let quality_score :=
    if (20 <=? air_humidity_in) && (air_humidity_in <=? 80) then (quality_score + 2)%Z
    else if (10 <=? air_humidity_in) && (air_humidity_in <=? 90) then (quality_score + 1)%Z
    else quality_score in
  if (6 <=? quality_score)%Z then "excellent"
  else if (4 <=? quality_score)%Z then "good"
  else if (2 <=? quality_score)%Z then "fair"
  else "poor".

(** [data.get(key)]: the value, or [None] for an absent key. *)
Definition dict_get (data : gmap string pyval) (key : string) : pyval :=
  default PNone (data !! key).

(** [l.append(x)] *)
Definition append {A : Type} (l : list A) (x : A) : list A := (l ++ [x])%list.

(** [', '.join(names)] *)
Definition join_names (names : list string) : string := String.concat ", " names.

(** The readings of a record whose required fields all passed validation. *)
Record validated : Type := mk_validated {
  v_device_id : pyval;
  v_timestamp : pyval;
  v_water_flow_lpm : float;
  v_water_temp_in : float;
  v_water_temp_out : float;
  v_air_temp_in : float;
  v_air_humidity_in : float
}.

Section Processor.
Context {rt : PyRuntime}.

Definition required_fields (data : gmap string pyval) : list (string * pyval) :=
  [ ("device_id", dict_get data "device_id");
    ("water_flow_lpm", dict_get data "flow_rate");
    ("water_temp_in", dict_get data "water_temp_inlet");
    ("water_temp_out", dict_get data "water_temp_outlet");
    ("air_temp_in", dict_get data "air_temp_inlet");
    ("air_humidity_in", dict_get data "air_humidity_inlet") ].

(** [try: r  except (ValueError, TypeError): h]; any other exception
    propagates. *)
Definition except_value_type {A : Type} (r : result A) (h : result A) : result A :=
  match r with
  | Raise (ValueError _) | Raise (TypeError _) => h
  | _ => r
  end.

(** One iteration of the loop over [required_fields]; the accumulator is
    the pair [(missing_fields, invalid_fields)]. *)
Definition check_field (acc : list string * list string) (field : string * pyval)
    : result (list string * list string) :=
  let '(missing_fields, invalid_fields) := acc in
  let '(field_name, field_value) := field in
  match field_value with
  | PNone => Ok (append missing_fields field_name, invalid_fields)
  | _ =>
      if negb (String.eqb field_name "device_id") then
        except_value_type
          (numeric_value ← py_float field_value;
           if numeric_value =? -999
           then Ok (missing_fields, append invalid_fields field_name)
           else Ok (missing_fields, invalid_fields))
          (Ok (missing_fields, append invalid_fields field_name))
      else Ok (missing_fields, invalid_fields)
  end.

Fixpoint check_fields (fields : list (string * pyval)) (acc : list string * list string)
    : result (list string * list string) :=
  match fields with
  | [] => Ok acc
  | field :: rest => acc' ← check_field acc field; check_fields rest acc'
  end.

Definition nonempty {A : Type} (l : list A) : bool :=
  match l with [] => false | _ :: _ => true end.

(** Lines 121-173 of [process_data]: extraction of the fields, the
    missing/sentinel screening, the conversion to float and the range checks. *)
Definition validate (data : gmap string pyval) : result validated :=
  let device_id := dict_get data "device_id" in
  let timestamp := dict_get data "timestamp" in
  let water_flow_lpm := dict_get data "flow_rate" in
  let water_temp_in := dict_get data "water_temp_inlet" in
  let water_temp_out := dict_get data "water_temp_outlet" in
  let air_temp_in := dict_get data "air_temp_inlet" in
  let air_humidity_in := dict_get data "air_humidity_inlet" in
  '(missing_fields, invalid_fields) ← check_fields (required_fields data) ([], []);
  raise_if (nonempty missing_fields)
    (ValueError ("Missing required fields: " ++ join_names missing_fields));;
  raise_if (nonempty invalid_fields)
    (ValueError ("Invalid sensor data (value = -999): " ++ join_names invalid_fields));;
  water_flow_lpm ← py_float (or_else water_flow_lpm (PInt 0));
  water_temp_in ← py_float (or_else water_temp_in (PInt 0));
  water_temp_out ← py_float (or_else water_temp_out (PInt 0));
  air_temp_in ← py_float (or_else air_temp_in (PInt 0));
  air_humidity_in ← py_float (or_else air_humidity_in (PInt 0));
  raise_if (water_flow_lpm <? 0)
    (ValueError ("Invalid water flow rate: " ++ float_str water_flow_lpm));;
  raise_if ((air_humidity_in <? 0) || (100 <? air_humidity_in))
    (ValueError ("Invalid humidity: " ++ float_str air_humidity_in ++ "%"));;
  Ok (mk_validated device_id timestamp water_flow_lpm water_temp_in water_temp_out
        air_temp_in air_humidity_in).

(** The guarded calculation blocks: each returns the value (or [None]) and the
    list [calculation_errors] after the block. *)
Definition guarded (label : string) (r : result float) (calculation_errors : list string)
    : option float * list string :=
  match r with
  | Ok x => (Some x, calculation_errors)
  | Raise e => (None, append calculation_errors (label ++ ": " ++ str_exn e))
  end.

Definition efficiency_attempt (water_temp_in water_temp_out : float)
    (wb_temp_in : option float) : result float :=
  match wb_temp_in with
  | Some wb => calculate_cooling_tower_efficiency water_temp_in water_temp_out wb
  | None => Raise (ValueError "Cannot calculate efficiency: wet bulb temperature unavailable")
  end.

Definition status_of (calculation_errors : list string) : string :=
  if negb (nonempty calculation_errors) then "success" else "partial_success".

(** Lines 176-233 of [process_data]: quality, the three calculations and the
    assembly of the record. *)
Definition assemble (now : string) (v : validated) : ProcessedReading.t :=
  let water_flow_lpm := v_water_flow_lpm v in
  let water_temp_in := v_water_temp_in v in
  let water_temp_out := v_water_temp_out v in
  let air_temp_in := v_air_temp_in v in
  let air_humidity_in := v_air_humidity_in v in
  let data_quality :=
    assess_data_quality water_temp_in water_temp_out water_flow_lpm air_humidity_in in
  let calculation_errors := [] in
  let '(wb_temp_in, calculation_errors) :=
    guarded "wet_bulb_calculation_error"
      (wet_bulb_stull air_temp_in air_humidity_in) calculation_errors in
  let '(cooling_efficiency, calculation_errors) :=
    guarded "cooling_efficiency_calculation_error"
      (efficiency_attempt water_temp_in water_temp_out wb_temp_in) calculation_errors in
  let '(cooling_capacity, calculation_errors) :=
    guarded "cooling_capacity_calculation_error"
      (calculate_cooling_capacity water_flow_lpm water_temp_in water_temp_out)
      calculation_errors in
  ProcessedReading.mk
    (v_device_id v)
    (v_timestamp v)
    now
    (round water_flow_lpm 2)
    (round water_temp_in 2)
    (round water_temp_out 2)
    (round air_temp_in 2)
    (round air_humidity_in 1)
    ((fun x => round x 2) <$> wb_temp_in)
    ((fun x => round x 2) <$> cooling_efficiency)
    ((fun x => round x 2) <$> cooling_capacity)
    calculation_errors
    data_quality
    (status_of calculation_errors).

(** [process_data]: a [ValueError] of the validation becomes a
    [data_validation_error] record, any other exception a
    [processing_error] record. *)
Definition process_data (data : gmap string pyval) (now : string) : output :=
  match (v ← validate data; Ok (assemble now v)) with
  | Ok processed_data => Processed processed_data
  | Raise (ValueError ve) =>
      Failed (ErrorRecord.mk "data_validation_error" ve now "failed")
  | Raise e =>
      Failed (ErrorRecord.mk "processing_error"
                ("Data processing error: " ++ str_exn e) now "failed")
  end.

End Processor.

(** ** The dictionaries [process_data] returns

    The callers read the result of [process_data] as a dictionary; these are
    the two dictionary literals of the function.  The list
    [calculation_errors] is a [PObj], of which the callers test the truth
    value only. *)

Definition optional_float (x : option float) : pyval :=
  match x with
  | Some f => PFloat f
  | None => PNone
  end.

Definition processed_dict (r : ProcessedReading.t) : gmap string pyval :=
  list_to_map
    [ ("device_id", ProcessedReading.device_id r);
      ("timestamp", ProcessedReading.timestamp r);
      ("processed_at", PStr (ProcessedReading.processed_at r));
      ("water_flow_lpm", PFloat (ProcessedReading.water_flow_lpm r));
      ("water_temp_in", PFloat (ProcessedReading.water_temp_in r));
      ("water_temp_out", PFloat (ProcessedReading.water_temp_out r));
      ("air_temp_in", PFloat (ProcessedReading.air_temp_in r));
      ("air_humidity_in", PFloat (ProcessedReading.air_humidity_in r));
      ("wet_bulb_temp_in", optional_float (ProcessedReading.wet_bulb_temp_in r));
      ("cooling_efficiency", optional_float (ProcessedReading.cooling_efficiency r));
      ("cooling_capacity", optional_float (ProcessedReading.cooling_capacity r));
      ("calculation_errors", PObj (nonempty (ProcessedReading.calculation_errors r)));
      ("data_quality", PStr (ProcessedReading.data_quality r));
      ("processing_status", PStr (ProcessedReading.processing_status r)) ].

Definition error_dict (e : ErrorRecord.t) : gmap string pyval :=
  list_to_map
    [ ("error", PStr (ErrorRecord.error e));
      ("message", PStr (ErrorRecord.message e));
      ("timestamp", PStr (ErrorRecord.timestamp e));
      ("processing_status", PStr (ErrorRecord.processing_status e)) ].

Definition output_dict (o : output) : gmap string pyval :=
  match o with
  | Processed r => processed_dict r
  | Failed e => error_dict e
  end.

(** [d.get(key, default)] *)
Definition dict_get_default (d : gmap string pyval) (key : string) (dflt : pyval) : pyval :=
  match d !! key with
  | Some v => v
  | None => dflt
  end.

(** [key in d] *)
Definition dict_has (d : gmap string pyval) (key : string) : bool :=
  match d !! key with
  | Some _ => true
  | None => false
  end.

(** ** config.py: the persistence sink and the utilities *)

(** [isinstance(value, (int, float))]; a [bool] is an [int]. *)
Definition is_number (v : pyval) : bool :=
  match v with
  | PBool _ | PInt _ | PFloat _ => true
  | _ => false
  end.

(** [float(value)] for a value that passed [is_number]. *)
Definition number_value (v : pyval) : result float :=
  match v with
  | PBool b => Ok (if b then 1 else 0)
  | PInt z => int_to_float z
  | PFloat f => Ok f
  | _ => Raise (TypeError "float() argument must be a string or a real number")
  end.

(** [s.replace('Z', '+00:00')] *)
Fixpoint replace_Z (s : string) : string :=
  match s with
  | EmptyString => EmptyString
  | String c rest =>
      if Ascii.eqb c "Z"%char then "+00:00" ++ replace_Z rest
      else String c (replace_Z rest)
  end.

(** The time of a point: the record's own timestamp, given as the ISO text
    that [datetime.fromisoformat] parsed (made UTC when it names no zone), or
    the time of the write, [datetime.now(timezone.utc)]. *)
Inductive point_time : Type :=
  | RecordTime (iso : string)
  | WriteTime.

Module Point.
Record t : Type := mk {
  measurement : string;
  device_id : pyval;
  time : point_time;
  fields : gmap string float
}.
End Point.

Definition not_a_field : list string := ["timestamp"; "processed_at"; "device_id"].

(** The test of the loop over [data.items()]. *)
Definition is_field (key : string) (value : pyval) : bool :=
  is_number value && negb (existsb (String.eqb key) not_a_field).

(** The body of the loop over [data.items()]: [point.field(key, float(value))]
    for a numeric entry; the accumulator is the set of fields of the point
    built so far, or the exception that ended the loop. *)
Definition add_field (key : string) (value : pyval) (fields : result (gmap string float))
    : result (gmap string float) :=
  fields ← fields;
  if is_field key value
  then x ← number_value value; Ok (<[key := x]> fields)
  else Ok fields.

Section Sink.
(** Whether [datetime.fromisoformat] accepts a text. *)
Variable iso_valid : string -> bool.
(** Whether [write_api.write] stores a point (it raises otherwise). *)
Variable accepts : Point.t -> bool.

(** The timestamp block of [write_data].  A truthy timestamp that is not a
    string has no attribute [tzinfo]; the bare [except] then substitutes the
    time of the write, as it does for a text that does not parse. *)
Definition point_time_of (timestamp : pyval) : point_time :=
  if truthy timestamp then
    match timestamp with
    | PStr s => if iso_valid (replace_Z s) then RecordTime (replace_Z s) else WriteTime
    | _ => WriteTime
    end
  else WriteTime.

(** Lines 206-228 of [write_data]: the point built from a dictionary; the
    conversion of an integer field may raise. *)
Definition build_point (data : gmap string pyval) : result Point.t :=
  let device_id := dict_get_default data "device_id" (PStr "unknown_device") in
  let timestamp := dict_get data "timestamp" in
  fields ← map_fold add_field (Ok ∅) data;
  Ok (Point.mk "cooling_tower" device_id (point_time_of timestamp) fields).

(** [InfluxDBHandler.write_data]; [connected] says that [write_api] is set
    and the client library is available, [db] is the list of the points
    stored so far.  Every exception ends in [return False]. *)
Definition write_data (connected : bool) (data : gmap string pyval) (db : list Point.t)
    : bool * list Point.t :=
  if negb connected then (false, db)
  else
    match build_point data with
    | Ok point => if accepts point then (true, append db point) else (false, db)
    | Raise _ => (false, db)
    end.

End Sink.

Section Utilities.
Context {rt : PyRuntime}.

(** The loop of [validate_sensor_data]. *)
Fixpoint sensor_fields_valid (data : gmap string pyval) (fields : list string) : result bool :=
  match fields with
  | [] => Ok true
  | field :: rest =>
      match data !! field with
      | None | Some PNone => Ok false
      | Some v =>
          match except_value_type (py_float v;; Ok true) (Ok false) with
          | Ok true => sensor_fields_valid data rest
          | Ok false => Ok false
          | Raise e => Raise e
          end
      end
  end.

Definition validate_sensor_data (data : gmap string pyval) : result bool :=
  let required_fields :=
    [ "water_flow_lpm"; "water_temp_in"; "water_temp_out"; "air_temp_in"; "air_humidity_in" ] in
  sensor_fields_valid data required_fields.

End Utilities.

(** [log_system_stats] and the counters of main.py *)
Module Stats.
Record t : Type := mk {
  messages_received : Z;
  messages_processed : Z;
  messages_failed : Z
}.
End Stats.

(** The success rate [log_system_stats] reports. *)
Definition success_rate (stats : Stats.t) : Q :=
  let received := Stats.messages_received stats in
  let processed := Stats.messages_processed stats in
  (if (0 <? received)%Z then inject_Z processed / inject_Z received * 100 else 0)%Q.

(** ** main.py: the message callback *)

(** What [json.loads(msg.payload.decode('utf-8'))] makes of a message: an
    exception, a JSON value that is not an object, or an object. *)
Inductive payload : Type :=
  | Undecodable
  | NotAnObject (v : pyval)
  | Object (data : gmap string pyval).

(** The counters and the database that [on_message] updates. *)
Record world : Type := mk_world {
  stats : Stats.t;
  db : list Point.t
}.

Definition count_received (w : world) : world :=
  let s := stats w in
  mk_world (Stats.mk (Stats.messages_received s + 1) (Stats.messages_processed s)
              (Stats.messages_failed s)) (db w).

Definition count_processed (w : world) : world :=
  let s := stats w in
  mk_world (Stats.mk (Stats.messages_received s) (Stats.messages_processed s + 1)
              (Stats.messages_failed s)) (db w).

Definition count_failed (w : world) : world :=
  let s := stats w in
  mk_world (Stats.mk (Stats.messages_received s) (Stats.messages_processed s)
              (Stats.messages_failed s + 1)) (db w).

(** [f"{value:.1f}"] succeeds on a number that converts to a float and
    raises on anything else. *)
Definition formats_as_float (v : pyval) : bool :=
  match number_value v with
  | Ok _ => true
  | Raise _ => false
  end.

Section Callback.
Context {rt : PyRuntime}.
Variable iso_valid : string -> bool.
Variable accepts : Point.t -> bool.

(** The part of [on_message] after [process_data] returned a dictionary
    without the key ["error"]: the write, the count, and the log line of a
    success, whose formatting of the efficiency is the one step that can
    still raise (the outer handler then counts a failure). *)
Definition on_processed (influx_handler : option bool) (processed_result : gmap string pyval)
    (w : world) : world :=
  let w :=
    match influx_handler with
    | Some connected =>
        if nonempty (map_to_list processed_result)
        then mk_world (stats w) (snd (write_data iso_valid accepts connected processed_result (db w)))
        else w
    | None => w
    end in
  let w := count_processed w in
  let processing_status :=
    dict_get_default processed_result "processing_status" (PStr "unknown") in
  match processing_status with
  | PStr status =>
      if String.eqb status "success" then
        if (Stats.messages_processed (stats w) mod 60 =? 0)%Z then
          let efficiency := dict_get_default processed_result "cooling_efficiency" (PInt 0) in
          if formats_as_float efficiency then w else count_failed w
        else w
      else w
  | _ => w
  end.

Definition on_message (influx_handler : option bool) (now : string) (msg : payload)
    (w : world) : world :=
  let w := count_received w in
  match msg with
  | Undecodable => count_failed w
  | NotAnObject _ => count_failed w
  | Object payload =>
      let processed_result := output_dict (process_data payload now) in
      if dict_has processed_result "error" then count_failed w
      else on_processed influx_handler processed_result w
  end.

(** The callback invoked on each message of a stream in turn; the clock
    gives the time of each call. *)
Fixpoint on_messages (influx_handler : option bool) (msgs : list (string * payload))
    (w : world) : world :=
  match msgs with
  | [] => w
  | (now, msg) :: rest =>
      on_messages influx_handler rest (on_message influx_handler now msg w)
  end.

End Callback.

Definition initial_world : world := mk_world (Stats.mk 0 0 0) [].

(** ** Reference definitions

    The vocabulary of the specification, written after its words, against
    which the embedded code is compared. *)

(** [x] lies in the interval [[lo, hi]], respectively outside of it, by the
    comparisons of binary64 (NaN is neither inside nor outside). *)
Definition within (lo hi x : float) : Prop := (lo <=? x) = true /\ (x <=? hi) = true.

Definition outside (lo hi x : float) : Prop := (x <? lo) = true \/ (hi <? x) = true.

(** [r] is [x] clamped to [[0,100]]. *)
Definition limited_to_0_100 (x r : float) : Prop :=
  ((x <? 0) = true -> r = 0)
  /\ ((100 <? x) = true -> r = 100)
  /\ ((x <? 0) = false -> (100 <? x) = false -> r = x).

(** The value a calculation produced, [None] when it raised. *)
Definition value_of {A : Type} (r : result A) : option A :=
  match r with
  | Ok a => Some a
  | Raise _ => None
  end.

(** A derived metric as the record stores it: rounded to two decimals, or null. *)
Definition stored {rt : PyRuntime} (r : result float) : option float :=
  (fun x => round x 2) <$> value_of r.

(** [name] occurs in the text [msg]. *)
Definition mentions (name msg : string) : bool :=
  match String.index 0 name msg with
  | Some _ => true
  | None => false
  end.

(** The required numeric fields: key of the raw reading, and the name under
    which the processor reports the field. *)
Definition numeric_fields : list (string * string) :=
  [ ("flow_rate", "water_flow_lpm");
    ("water_temp_inlet", "water_temp_in");
    ("water_temp_outlet", "water_temp_out");
    ("air_temp_inlet", "air_temp_in");
    ("air_humidity_inlet", "air_humidity_in") ].






(** The number of null derived fields of a record. *)
Definition null_count (r : ProcessedReading.t) : nat :=
  length (List.filter (fun f => match f with None => true | Some _ => false end)
            [ ProcessedReading.wet_bulb_temp_in r;
              ProcessedReading.cooling_efficiency r;
              ProcessedReading.cooling_capacity r ]).

Section FieldClasses.
Context {rt : PyRuntime}.

(** Missing: absent or null. *)
Definition is_missing (field : string * pyval) : bool :=
  match snd field with
  | PNone => true
  | _ => false
  end.

(** Invalid: a numeric field that is present but carries the sentinel [-999]
    or does not convert to a number. *)
Definition is_invalid (field : string * pyval) : bool :=
  negb (is_missing field)
  && negb (String.eqb (fst field) "device_id")
  && match py_float (snd field) with
     | Ok x => x =? -999
     | Raise _ => true
     end.

(** Out of range: a numeric field that is an integer too large for a
    float. *)
Definition overflows (field : string * pyval) : bool :=
  negb (is_missing field)
  && negb (String.eqb (fst field) "device_id")
  && match py_float (snd field) with
     | Raise (OverflowError _) => true
     | _ => false
     end.

(** A present numeric field that is a number other than the sentinel. *)
Definition valid_number (v : pyval) : Prop :=
  exists x, py_float v = Ok x /\ (x =? -999) = false.

Definition missing_among (fields : list (string * pyval)) : list string :=
  map fst (List.filter is_missing fields).

Definition invalid_among (fields : list (string * pyval)) : list string :=
  map fst (List.filter is_invalid fields).

Definition missing_names (data : gmap string pyval) : list string :=
  missing_among (required_fields data).

Definition invalid_names (data : gmap string pyval) : list string :=
  invalid_among (required_fields data).

Definition overflowing_names (data : gmap string pyval) : list string :=
  map fst (List.filter overflows (required_fields data)).

End FieldClasses.

(** The field written for one entry of a dictionary, if any. *)
Definition field_of (key : string) (value : pyval) : option float :=
  if is_field key value then value_of (number_value value) else None.

Section MessageClasses.
Context {rt : PyRuntime}.

(** A message that decodes to an object which passes validation. *)
Definition accepted (msg : payload) : bool :=
  match msg with
  | Object data =>
      match validate data with
      | Ok _ => true
      | Raise _ => false
      end
  | _ => false
  end.

(** The point of a message, if it is accepted. *)
Definition point_of (iso_valid : string -> bool) (now : string) (msg : payload)
    : list Point.t :=
  match msg with
  | Object data =>
      match process_data data now with
      | Processed r =>
          match build_point iso_valid (processed_dict r) with
          | Ok p => [p]
          | Raise _ => []
          end
      | Failed _ => []
      end
  | _ => []
  end.

(** The fields of the point of a processed reading. *)
Definition expected_field (r : ProcessedReading.t) (key : string) : option float :=
  if String.eqb key "water_flow_lpm" then Some (ProcessedReading.water_flow_lpm r)
  else if String.eqb key "water_temp_in" then Some (ProcessedReading.water_temp_in r)
  else if String.eqb key "water_temp_out" then Some (ProcessedReading.water_temp_out r)
  else if String.eqb key "air_temp_in" then Some (ProcessedReading.air_temp_in r)
  else if String.eqb key "air_humidity_in" then Some (ProcessedReading.air_humidity_in r)
  else if String.eqb key "wet_bulb_temp_in" then ProcessedReading.wet_bulb_temp_in r
  else if String.eqb key "cooling_efficiency" then ProcessedReading.cooling_efficiency r
  else if String.eqb key "cooling_capacity" then ProcessedReading.cooling_capacity r
  else None.

End MessageClasses.

(** ** Classes of binary64 numbers

    Read off the representation [spec_float] of a number: sign, mantissa and
    exponent, or one of the special values. *)

Definition SFis_nan (x : spec_float) : bool :=
  match x with S754_nan => true | _ => false end.

Definition SFis_infinity (x : spec_float) : bool :=
  match x with S754_infinity _ => true | _ => false end.

(** Not below zero: NaN, a zero of either sign, or a positive number. *)
Definition SFnot_negative (x : spec_float) : bool :=
  match x with
  | S754_infinity true | S754_finite true _ _ => false
  | _ => true
  end.

(** Finite and not zero, or infinite. *)
Definition SFnonzero (x : spec_float) : bool :=
  match x with
  | S754_infinity _ | S754_finite _ _ _ => true
  | _ => false
  end.

(** ** A runtime for running the model

    Stand-ins for the numeric library, the rounding and the float formatter;
    the properties below hold for every runtime, this one only serves to run
    the model on concrete readings. *)

Definition model_runtime : PyRuntime := {|
  math_atan := fun x => x / (1 + abs x);
  float_pow := fun x y => x * y;
  round := fun x _ => x;
  float_str := fun _ => "<float>";
  float_fixed := fun _ _ => "<float>";
  float_of_string := fun _ => None
|}.

(** Construction of a reading from its key/value pairs. *)
Definition reading (fields : list (string * pyval)) : gmap string pyval :=
  list_to_map fields.

(** ** Concrete readings *)

(** The reading of the module's documentation. *)
Definition documented_reading : gmap string pyval :=
  reading [ ("device_id", PStr "ESP32_TOWER_01"); ("timestamp", PInt 31729);
            ("flow_rate", PFloat 5.555555); ("water_temp_inlet", PInt 28);
            ("water_temp_outlet", PFloat 26.6875); ("air_temp_inlet", PFloat 28.6);
            ("air_humidity_inlet", PFloat 49.5) ].

(** The same reading with an air temperature outside the wet-bulb domain and
    no flow. *)
Definition hot_air_reading : gmap string pyval :=
  reading [ ("device_id", PStr "ESP32_TOWER_01"); ("timestamp", PInt 31729);
            ("flow_rate", PInt 0); ("water_temp_inlet", PInt 28);
            ("water_temp_outlet", PFloat 26.6875); ("air_temp_inlet", PFloat 128.6);
            ("air_humidity_inlet", PFloat 49.5) ].

(** The documented reading with an air temperature outside the wet-bulb
    domain. *)
Definition hot_air_flowing_reading : gmap string pyval :=
  reading [ ("device_id", PStr "ESP32_TOWER_01"); ("timestamp", PInt 31729);
            ("flow_rate", PFloat 5.555555); ("water_temp_inlet", PInt 28);
            ("water_temp_outlet", PFloat 26.6875); ("air_temp_inlet", PFloat 128.6);
            ("air_humidity_inlet", PFloat 49.5) ].

(** A reading with no flow, otherwise in order. *)
Definition zero_flow_reading : gmap string pyval :=
  reading [ ("device_id", PStr "ESP32_TOWER_01"); ("timestamp", PInt 31729);
            ("flow_rate", PFloat 0.0); ("water_temp_inlet", PInt 28);
            ("water_temp_outlet", PFloat 26.6875); ("air_temp_inlet", PFloat 28.6);
            ("air_humidity_inlet", PFloat 49.5) ].

(** A reading without inlet water temperature whose flow sensor reports the
    sentinel. *)
Definition missing_and_sentinel_reading : gmap string pyval :=
  reading [ ("device_id", PStr "ESP32_TOWER_01"); ("timestamp", PInt 31729);
            ("flow_rate", PInt (-999));
            ("water_temp_outlet", PFloat 26.6875); ("air_temp_inlet", PFloat 28.6);
            ("air_humidity_inlet", PFloat 49.5) ].

(** A reading with a null device id whose humidity sensor reports the
    sentinel. *)
Definition anonymous_sentinel_reading : gmap string pyval :=
  reading [ ("device_id", PNone); ("timestamp", PInt 31729);
            ("flow_rate", PFloat 5.555555); ("water_temp_inlet", PInt 28);
            ("water_temp_outlet", PFloat 26.6875); ("air_temp_inlet", PFloat 28.6);
            ("air_humidity_inlet", PFloat (-999.0)) ].

(** A reading with every field present, of which one carries the sentinel and
    one is not a number. *)
Definition two_invalid_reading : gmap string pyval :=
  reading [ ("device_id", PStr "ESP32_TOWER_01"); ("timestamp", PInt 31729);
            ("flow_rate", PInt (-999)); ("water_temp_inlet", PInt 28);
            ("water_temp_outlet", PStr "n/a"); ("air_temp_inlet", PFloat 28.6);
            ("air_humidity_inlet", PFloat 49.5) ].

(** A reading whose flow sensor reports the sentinel and whose inlet water
    temperature is an integer beyond the range of a float. *)
Definition sentinel_and_huge_reading : gmap string pyval :=
  reading [ ("device_id", PStr "ESP32_TOWER_01"); ("timestamp", PInt 31729);
            ("flow_rate", PInt (-999)); ("water_temp_inlet", PInt (10 ^ 400));
            ("water_temp_outlet", PFloat 26.6875); ("air_temp_inlet", PFloat 28.6);
            ("air_humidity_inlet", PFloat 49.5) ].

(** A reading without inlet water temperature whose flow is an integer
    beyond the range of a float. *)
Definition missing_and_huge_reading : gmap string pyval :=
  reading [ ("device_id", PStr "ESP32_TOWER_01"); ("timestamp", PInt 31729);
            ("flow_rate", PInt (10 ^ 400));
            ("water_temp_outlet", PFloat 26.6875); ("air_temp_inlet", PFloat 28.6);
            ("air_humidity_inlet", PFloat 49.5) ].

(** The documented reading with an infinite inlet water temperature (the
    JSON literal [Infinity]). *)
Definition infinite_inlet_reading : gmap string pyval :=
  reading [ ("device_id", PStr "ESP32_TOWER_01"); ("timestamp", PInt 31729);
            ("flow_rate", PFloat 5.555555); ("water_temp_inlet", PFloat infinity);
            ("water_temp_outlet", PFloat 26.6875); ("air_temp_inlet", PFloat 28.6);
            ("air_humidity_inlet", PFloat 49.5) ].

(** A reading with a negative flow and a humidity above 100. *)
Definition negative_flow_reading : gmap string pyval :=
  reading [ ("device_id", PStr "ESP32_TOWER_01"); ("timestamp", PInt 31729);
            ("flow_rate", PFloat (-2.5)); ("water_temp_inlet", PInt 28);
            ("water_temp_outlet", PFloat 26.6875); ("air_temp_inlet", PFloat 28.6);
            ("air_humidity_inlet", PFloat 150) ].

(** A reading with a humidity above 100, otherwise in order. *)
Definition saturated_reading : gmap string pyval :=
  reading [ ("device_id", PStr "ESP32_TOWER_01"); ("timestamp", PInt 31729);
            ("flow_rate", PFloat 5.555555); ("water_temp_inlet", PInt 28);
            ("water_temp_outlet", PFloat 26.6875); ("air_temp_inlet", PFloat 28.6);
            ("air_humidity_inlet", PFloat 150) ].

Definition clock : string := "2024-01-15T10:30:05.123".

(** * Verification *)

(** ** Binary64 arithmetic

    Facts about the comparisons and the operations of binary64, proved from
    their specification over [spec_float]. *)

(** *** Comparisons *)

Lemma SFcompare_antisym x y :
  SFcompare y x = option_map CompOpp (SFcompare x y).
Proof.
  destruct x as [sx|sx| |sx mx ex], y as [sy|sy| |sy my ey]; cbn;
    try destruct sx; try destruct sy; cbn; try reflexivity.
  all: rewrite (Z.compare_antisym ex ey); destruct (ex ?= ey)%Z; cbn; try reflexivity.
  all: change (PosDef.Pos.compare_cont Eq my mx) with (my ?= mx)%positive;
    change (PosDef.Pos.compare_cont Eq mx my) with (mx ?= my)%positive;
    rewrite (Pos.compare_antisym mx my); destruct (mx ?= my)%positive; cbn; reflexivity.
Qed.

Lemma SFcompare_none x y :
  SFcompare x y = None <-> (x = S754_nan \/ y = S754_nan).
Proof.
  destruct x as [sx|sx| |sx mx ex], y as [sy|sy| |sy my ey]; cbn;
    try destruct sx; try destruct sy; cbn; split; intros H;
    try discriminate; try (destruct H; discriminate); auto.
  all: destruct (ex ?= ey)%Z; discriminate.
Qed.

Lemma SFcompare_finite_Eq s m e y :
  SFcompare y (S754_finite s m e) = Some Eq -> y = S754_finite s m e.
Proof.
  destruct y as [sy|sy| |sy my ey]; cbn; try destruct sy; try destruct s; cbn;
    try discriminate.
  all: destruct (ey ?= e)%Z eqn:Ee; try discriminate;
    change (PosDef.Pos.compare_cont Eq my m) with (my ?= m)%positive;
    destruct (my ?= m)%positive eqn:Em; try discriminate;
    intros _; apply Z.compare_eq in Ee; apply Pos.compare_eq in Em; congruence.
Qed.

Lemma SFltb_zero x s : SFltb x (S754_zero s) = negb (SFnot_negative x).
Proof. destruct x as [sx|sx| |sx mx ex]; try destruct sx; reflexivity. Qed.

Lemma SFeqb_zero x s : SFnonzero x = true -> SFeqb x (S754_zero s) = false.
Proof. destruct x as [sx|sx| |sx mx ex]; try destruct sx; cbn; congruence. Qed.

(** *** Signs *)

Lemma binary_round_aux_not_negative m e l :
  SFnot_negative (binary_round_aux prec emax false m e l) = true.
Proof.
  unfold binary_round_aux.
  destruct (shr_fexp prec emax m e l) as [mrs' e'].
  destruct (shr_fexp prec emax _ e' loc_Exact) as [mrs'' e''].
  destruct (shr_m mrs''); [reflexivity| |reflexivity].
  destruct (e'' <=? emax - prec)%Z; reflexivity.
Qed.

Lemma binary_normalize_not_negative m e :
  (0 <= m)%Z -> SFnot_negative (binary_normalize prec emax m e false) = true.
Proof.
  destruct m as [|m|m]; [reflexivity| |lia]. intros _. cbn [binary_normalize].
  unfold binary_round. destruct (shl_align _ _ _). apply binary_round_aux_not_negative.
Qed.

Lemma SFadd_not_negative x y :
  SFnot_negative x = true -> SFnot_negative y = true ->
  SFnot_negative (SFadd prec emax x y) = true.
Proof.
  destruct x as [sx|sx| |sx mx ex], y as [sy|sy| |sy my ey];
    try destruct sx; try destruct sy; cbn [SFnot_negative SFadd]; try congruence; try reflexivity.
  intros _ _. apply binary_normalize_not_negative. cbn [cond_Zopp]. lia.
Qed.

Lemma SFmul_not_negative x y :
  SFnot_negative x = true -> SFnot_negative y = true ->
  SFnot_negative (SFmul prec emax x y) = true.
Proof.
  destruct x as [sx|sx| |sx mx ex], y as [sy|sy| |sy my ey];
    try destruct sx; try destruct sy; cbn [SFnot_negative SFmul xorb]; try congruence; try reflexivity.
  intros _ _. apply binary_round_aux_not_negative.
Qed.

Lemma SFdiv_not_negative x my ey :
  SFnot_negative x = true ->
  SFnot_negative (SFdiv prec emax x (S754_finite false my ey)) = true.
Proof.
  destruct x as [sx|sx| |sx mx ex];
    try destruct sx; cbn [SFnot_negative SFdiv xorb]; try congruence; try reflexivity.
  intros _.
  destruct (SFdiv_core_binary prec emax (Z.pos mx) ex (Z.pos my) ey) as [[mz ez] lz].
  apply binary_round_aux_not_negative.
Qed.

(** *** Shifts of the mantissa *)

Lemma iter_pos_nat {A : Type} (f : A -> A) (n : positive) (x : A) :
  SpecFloat.iter_pos f n x = Nat.iter (Pos.to_nat n) f x.
Proof.
  revert x. induction n as [n IH|n IH|]; intros x; cbn [SpecFloat.iter_pos].
  - rewrite !IH, Pos2Nat.inj_xI.
    replace (S (2 * Pos.to_nat n)) with (Pos.to_nat n + S (Pos.to_nat n))%nat by lia.
    now rewrite Nat.iter_add, Nat.iter_succ_r.
  - rewrite !IH, Pos2Nat.inj_xO.
    replace (2 * Pos.to_nat n)%nat with (Pos.to_nat n + Pos.to_nat n)%nat by lia.
    now rewrite Nat.iter_add.
  - reflexivity.
Qed.

Lemma shr_1_m (mrs : shr_record) :
  (0 <= shr_m mrs)%Z -> shr_m (shr_1 mrs) = Z.div2 (shr_m mrs).
Proof. destruct mrs as [[|[p|p|]|p] r s]; cbn; intros H; try reflexivity; lia. Qed.

Lemma shr_iter_m (k : nat) (mrs : shr_record) :
  (0 <= shr_m mrs)%Z ->
  shr_m (Nat.iter k shr_1 mrs) = (shr_m mrs / 2 ^ Z.of_nat k)%Z.
Proof.
  intros H. induction k as [|k IH].
  - cbn. now rewrite Z.div_1_r.
  - rewrite Nat.iter_succ, shr_1_m.
    + rewrite IH, Z.div2_div, Z.div_div by lia.
      f_equal. rewrite Nat2Z.inj_succ, Z.pow_succ_r by lia. lia.
    + rewrite IH. apply Z.div_pos; lia.
Qed.

Lemma shr_record_of_loc_m (m : Z) (l : location) : shr_m (shr_record_of_loc m l) = m.
Proof. destruct l as [|[]]; reflexivity. Qed.

Lemma digits2_pos_lower (m : positive) :
  (2 ^ (Z.pos (digits2_pos m) - 1) <= Z.pos m)%Z.
Proof.
  induction m as [m IH|m IH|]; cbn [digits2_pos]; [| |cbn; lia].
  - rewrite Pos2Z.inj_succ. replace (Z.succ (Z.pos (digits2_pos m)) - 1)%Z
      with (Z.succ (Z.pos (digits2_pos m) - 1)) by lia.
    rewrite Z.pow_succ_r by lia. lia.
  - rewrite Pos2Z.inj_succ. replace (Z.succ (Z.pos (digits2_pos m)) - 1)%Z
      with (Z.succ (Z.pos (digits2_pos m) - 1)) by lia.
    rewrite Z.pow_succ_r by lia. lia.
Qed.

(** Rounding a positive mantissa at an exponent that is not below [emin]
    keeps it positive. *)
Lemma shr_fexp_positive (m : positive) (e : Z) (l : location) :
  (emin <= e)%Z ->
  (0 < shr_m (fst (shr_fexp prec emax (Z.pos m) e l)))%Z
  /\ (e <= snd (shr_fexp prec emax (Z.pos m) e l))%Z.
Proof.
  intros He. unfold shr_fexp, shr. cbn [Zdigits2].
  pose proof (digits2_pos_lower m) as Hm.
  set (d := Z.pos (digits2_pos m)) in *.
  assert (Hd : (0 < d)%Z) by (subst d; lia).
  destruct (fexp prec emax (d + e) - e)%Z as [|n|n] eqn:En; cbn [fst snd];
    rewrite ?shr_record_of_loc_m; try lia.
  assert (Hn : (Z.pos n <= d - 1)%Z).
  { revert En He. unfold fexp, SpecFloat.emin, prec, emax. lia. }
  split; [|lia].
  rewrite iter_pos_nat, shr_iter_m by (rewrite shr_record_of_loc_m; lia).
  rewrite shr_record_of_loc_m, positive_nat_Z.
  apply Z.div_str_pos. split; [apply Z.pow_pos_nonneg; lia|].
  apply Z.le_trans with (2 ^ (d - 1))%Z; [|exact Hm].
  apply Z.pow_le_mono_r; lia.
Qed.

Lemma round_nearest_even_ge (m : Z) (l : location) : (m <= round_nearest_even m l)%Z.
Proof. destruct l as [|[]]; cbn; try destruct (Z.even m); lia. Qed.

Lemma binary_round_aux_nonzero (s : bool) (m : positive) (e : Z) (l : location) :
  (emin <= e)%Z -> SFnonzero (binary_round_aux prec emax s (Z.pos m) e l) = true.
Proof.
  intros He. unfold binary_round_aux.
  destruct (shr_fexp_positive m e l He) as [H1 H2].
  destruct (shr_fexp prec emax (Z.pos m) e l) as [mrs' e']. cbn [fst snd] in H1, H2.
  pose proof (round_nearest_even_ge (shr_m mrs') (loc_of_shr_record mrs')) as Hr.
  destruct (round_nearest_even (shr_m mrs') (loc_of_shr_record mrs')) as [|m2|m2]; try lia.
  destruct (shr_fexp_positive m2 e' loc_Exact ltac:(lia)) as [H3 H4].
  destruct (shr_fexp prec emax (Z.pos m2) e' loc_Exact) as [mrs'' e'']. cbn [fst snd] in H3, H4.
  destruct (shr_m mrs''); try lia.
  destruct (e'' <=? emax - prec)%Z; reflexivity.
Qed.

Lemma fexp_ge_emin (e : Z) : (emin <= fexp prec emax e)%Z.
Proof. unfold fexp. lia. Qed.

Lemma binary_round_nonzero (s : bool) (m : positive) (e : Z) :
  (emin <= e)%Z -> SFnonzero (binary_round prec emax s m e) = true.
Proof.
  intros He. unfold binary_round, shl_align.
  pose proof (fexp_ge_emin (Z.pos (digits2_pos m) + e)) as Hf.
  destruct (fexp prec emax (Z.pos (digits2_pos m) + e) - e)%Z;
    apply binary_round_aux_nonzero; lia.
Qed.

Lemma binary_normalize_nonzero (m e : Z) (szero : bool) :
  m <> 0%Z -> (emin <= e)%Z -> SFnonzero (binary_normalize prec emax m e szero) = true.
Proof.
  intros Hm He. destruct m; [congruence| |]; now apply binary_round_nonzero.
Qed.

(** *** Canonical representations *)

Lemma valid_finite (s : bool) (m : positive) (e : Z) :
  valid_binary (S754_finite s m e) = true ->
  fexp prec emax (Z.pos (digits2_pos m) + e) = e /\ (e <= emax - prec)%Z.
Proof.
  cbn. unfold bounded, canonical_mantissa. rewrite andb_true_iff, Z.eqb_eq, Z.leb_le. tauto.
Qed.

Lemma valid_finite_emin (s : bool) (m : positive) (e : Z) :
  valid_binary (S754_finite s m e) = true -> (emin <= e)%Z.
Proof.
  intros H. apply valid_finite in H as [H _]. rewrite <- H. apply fexp_ge_emin.
Qed.

Lemma digits2_pos_iter_xO (m d : positive) :
  Z.pos (digits2_pos (Pos.iter xO m d)) = (Z.pos (digits2_pos m) + Z.pos d)%Z.
Proof.
  induction d as [|d IH] using Pos.peano_ind.
  - cbn. lia.
  - rewrite Pos.iter_succ. cbn [digits2_pos]. rewrite Pos2Z.inj_succ, IH. lia.
Qed.

Lemma shl_align_digits (m : positive) (e e' : Z) :
  (e' <= e)%Z ->
  Z.pos (digits2_pos (fst (shl_align m e e'))) = (Z.pos (digits2_pos m) + (e - e'))%Z.
Proof.
  intros H. unfold shl_align. destruct (e' - e)%Z as [|d|d] eqn:E; cbn [fst]; try lia.
  rewrite digits2_pos_iter_xO. lia.
Qed.

Lemma shl_align_same (m : positive) (e : Z) : fst (shl_align m e e) = m.
Proof. unfold shl_align. now rewrite Z.sub_diag. Qed.

(** Two valid finite numbers whose mantissas coincide once aligned are the
    same number. *)
Lemma aligned_mantissas_equal (sx sy : bool) (mx my : positive) (ex ey : Z) :
  valid_binary (S754_finite sx mx ex) = true ->
  valid_binary (S754_finite sy my ey) = true ->
  fst (shl_align mx ex (Z.min ex ey)) = fst (shl_align my ey (Z.min ex ey)) ->
  mx = my /\ ex = ey.
Proof.
  intros Hx Hy H.
  apply valid_finite in Hx as [Hx _]. apply valid_finite in Hy as [Hy _].
  pose proof (shl_align_digits mx ex (Z.min ex ey) ltac:(lia)) as Dx.
  pose proof (shl_align_digits my ey (Z.min ex ey) ltac:(lia)) as Dy.
  rewrite H in Dx. rewrite Dx in Dy.
  assert (E : (Z.pos (digits2_pos mx) + ex = Z.pos (digits2_pos my) + ey)%Z) by lia.
  assert (Ee : ex = ey) by (rewrite <- Hx, <- Hy, E; reflexivity).
  subst ey. rewrite Z.min_id, !shl_align_same in H. now split.
Qed.

Lemma SFcompare_refl_finite (s : bool) (m : positive) (e : Z) :
  SFcompare (S754_finite s m e) (S754_finite s m e) = Some Eq.
Proof.
  cbn. rewrite Z.compare_refl.
  change (PosDef.Pos.compare_cont Eq m m) with (m ?= m)%positive.
  rewrite Pos.compare_refl. now destruct s.
Qed.

(** The difference of two numbers of which the first is not below or equal
    to the second is not zero: subtraction does not underflow. *)
Lemma SFsub_nonzero (x y : spec_float) :
  valid_binary x = true -> valid_binary y = true ->
  SFleb x y = false ->
  SFeqb (SFsub prec emax x y) (S754_zero false) = false.
Proof.
  intros Vx Vy.
  destruct x as [sx|sx| |sx mx ex], y as [sy|sy| |sy my ey];
    try destruct sx; try destruct sy; cbn [SFsub negb]; try reflexivity;
    try (cbn; congruence).
  all: intros Hle; apply SFeqb_zero, binary_normalize_nonzero;
    [|pose proof (valid_finite_emin _ _ _ Vx); pose proof (valid_finite_emin _ _ _ Vy); lia].
  all: cbn [cond_Zopp]; try lia.
  all: intros E;
    assert (Em : fst (shl_align mx ex (Z.min ex ey)) = fst (shl_align my ey (Z.min ex ey)))
      by lia;
    destruct (aligned_mantissas_equal _ _ _ _ _ _ Vx Vy Em) as [-> ->];
    unfold SFleb in Hle; rewrite SFcompare_refl_finite in Hle; discriminate.
Qed.

(** *** Exact results *)

Lemma shr_1_exact (k : nat) (m : positive) :
  Nat.iter k shr_1 {| shr_m := Z.pos (Nat.iter k xO m); shr_r := false; shr_s := false |}
  = {| shr_m := Z.pos m; shr_r := false; shr_s := false |}.
Proof.
  induction k as [|k IH]; [reflexivity|].
  rewrite Nat.iter_succ_r. rewrite Nat.iter_succ. cbn [shr_1 orb]. exact IH.
Qed.

Lemma Pos_iter_nat {A : Type} (f : A -> A) (x : A) (p : positive) :
  Pos.iter f x p = Nat.iter (Pos.to_nat p) f x.
Proof. apply Pos2Nat.inj_iter. Qed.

(** Rounding a mantissa that was shifted to the left gives the number
    back. *)
Lemma binary_round_aux_shifted (s : bool) (m : positive) (e : Z) (d : positive) :
  valid_binary (S754_finite s m e) = true ->
  binary_round_aux prec emax s (Z.pos (Pos.iter xO m d)) (e - Z.pos d) loc_Exact
  = S754_finite s m e.
Proof.
  intros V. apply valid_finite in V as [Hc Hb].
  unfold binary_round_aux, shr_fexp. cbn [Zdigits2].
  rewrite digits2_pos_iter_xO.
  replace (Z.pos (digits2_pos m) + Z.pos d + (e - Z.pos d))%Z
    with (Z.pos (digits2_pos m) + e)%Z by lia.
  rewrite Hc. replace (e - (e - Z.pos d))%Z with (Z.pos d) by lia.
  cbn [shr shr_record_of_loc].
  rewrite iter_pos_nat, Pos_iter_nat, shr_1_exact.
  cbn [shr_m shr_r shr_s loc_of_shr_record round_nearest_even Zdigits2].
  replace (e - Z.pos d + Z.pos d)%Z with e by lia.
  rewrite Hc, Z.sub_diag. cbn [shr shr_m].
  apply Z.leb_le in Hb. now rewrite Hb.
Qed.

Lemma SFmul_one (x : spec_float) :
  valid_binary x = true -> SFmul prec emax x (Prim2SF 1) = x.
Proof.
  intros V. change (Prim2SF 1) with (S754_finite false 4503599627370496 (-52)).
  destruct x as [sx|sx| |sx mx ex]; cbn [SFmul]; rewrite ?xorb_false_r; try reflexivity.
  rewrite Pos.mul_comm.
  change (4503599627370496 * mx)%positive with (Pos.iter xO mx 52).
  now apply (binary_round_aux_shifted sx mx ex 52).
Qed.

(** *** Symmetry of the distance *)

Lemma SFabs_binary_round (s s' : bool) (m : positive) (e : Z) :
  SFabs (binary_round prec emax s m e) = SFabs (binary_round prec emax s' m e).
Proof.
  unfold binary_round. destruct (shl_align _ _ _) as [mz ez]. unfold binary_round_aux.
  destruct (shr_fexp prec emax (Z.pos mz) ez loc_Exact) as [mrs' e'].
  destruct (shr_fexp prec emax _ e' loc_Exact) as [mrs'' e''].
  destruct (shr_m mrs''); [reflexivity| |reflexivity].
  destruct (e'' <=? emax - prec)%Z; reflexivity.
Qed.

Lemma SFabs_binary_normalize_opp (m e : Z) :
  SFabs (binary_normalize prec emax (- m) e false)
  = SFabs (binary_normalize prec emax m e false).
Proof. destruct m; cbn [Z.opp binary_normalize]; [reflexivity| |]; apply SFabs_binary_round. Qed.

Lemma SFabs_sub_comm (x y : spec_float) :
  SFabs (SFsub prec emax x y) = SFabs (SFsub prec emax y x).
Proof.
  destruct x as [sx|sx| |sx mx ex], y as [sy|sy| |sy my ey];
    try destruct sx; try destruct sy; cbn [SFsub SFabs negb]; try reflexivity.
  all: rewrite (Z.min_comm ey ex), <- SFabs_binary_normalize_opp; do 2 f_equal;
    cbn [cond_Zopp]; lia.
Qed.

(** *** The operations of [float] *)

Lemma ltb_zero (x : float) : (x <? 0) = negb (SFnot_negative (Prim2SF x)).
Proof. rewrite FloatAxioms.ltb_spec. apply SFltb_zero. Qed.

Lemma is_nan_spec (x : float) : is_nan x = true <-> Prim2SF x = S754_nan.
Proof.
  unfold is_nan. rewrite FloatAxioms.eqb_spec. unfold SFeqb.
  destruct (SFcompare (Prim2SF x) (Prim2SF x)) as [c|] eqn:E.
  - split; intros H.
    + destruct (Prim2SF x) as [s|s| |s m e]; try reflexivity.
      * destruct s; cbn in E; injection E as <-; discriminate.
      * destruct s; cbn in E; injection E as <-; discriminate.
      * rewrite SFcompare_refl_finite in E. injection E as <-. discriminate.
    + rewrite H in E. discriminate.
  - apply SFcompare_none in E. split; [tauto | reflexivity].
Qed.

Lemma leb_true_ltb_false (x y : float) : (x <=? y) = true -> (y <? x) = false.
Proof.
  rewrite FloatAxioms.leb_spec, FloatAxioms.ltb_spec. unfold SFleb, SFltb.
  rewrite (SFcompare_antisym (Prim2SF x) (Prim2SF y)).
  destruct (SFcompare (Prim2SF x) (Prim2SF y)) as [[]|]; cbn; congruence.
Qed.

Lemma ltb_true_leb_false (x y : float) : (x <? y) = true -> (y <=? x) = false.
Proof.
  rewrite FloatAxioms.leb_spec, FloatAxioms.ltb_spec. unfold SFleb, SFltb.
  rewrite (SFcompare_antisym (Prim2SF x) (Prim2SF y)).
  destruct (SFcompare (Prim2SF x) (Prim2SF y)) as [[]|]; cbn; congruence.
Qed.

Lemma ltb_true_leb_true (x y : float) : (x <? y) = true -> (x <=? y) = true.
Proof.
  rewrite FloatAxioms.leb_spec, FloatAxioms.ltb_spec. unfold SFleb, SFltb.
  destruct (SFcompare (Prim2SF x) (Prim2SF y)) as [[]|]; cbn; congruence.
Qed.

Lemma ltb_false_leb_true (x y : float) :
  is_nan x = false -> is_nan y = false -> (x <? y) = false -> (y <=? x) = true.
Proof.
  intros Hx Hy. rewrite FloatAxioms.leb_spec, FloatAxioms.ltb_spec. unfold SFleb, SFltb.
  rewrite (SFcompare_antisym (Prim2SF x) (Prim2SF y)).
  destruct (SFcompare (Prim2SF x) (Prim2SF y)) as [[]|] eqn:E; cbn; try congruence.
  apply SFcompare_none in E. destruct E as [E|E]; apply is_nan_spec in E; congruence.
Qed.

Lemma leb_true_not_nan (x y : float) : (x <=? y) = true -> is_nan x = false /\ is_nan y = false.
Proof.
  rewrite FloatAxioms.leb_spec. unfold SFleb. intros H.
  split; apply not_true_iff_false; intros E; apply is_nan_spec in E; rewrite E in H;
    [|destruct (Prim2SF x)]; discriminate.
Qed.

(** Equality with a finite number other than zero is equality of the
    floats. *)
Lemma eqb_finite (x c : float) (s : bool) (m : positive) (e : Z) :
  Prim2SF c = S754_finite s m e -> (x =? c) = true -> x = c.
Proof.
  intros Hc. rewrite FloatAxioms.eqb_spec, Hc. unfold SFeqb.
  destruct (SFcompare (Prim2SF x) (S754_finite s m e)) as [[]|] eqn:E; try discriminate.
  intros _. apply SFcompare_finite_Eq in E. apply Prim2SF_inj. congruence.
Qed.

Lemma eqb_zero (x : float) :
  (x =? 0) = true -> (x <? 0) = false /\ (x <=? 0) = true /\ (0 <=? x) = true.
Proof.
  rewrite FloatAxioms.eqb_spec, FloatAxioms.ltb_spec, !FloatAxioms.leb_spec. change (Prim2SF 0) with (S754_zero false).
  destruct (Prim2SF x) as [s|s| |s m e]; try destruct s; cbn; try discriminate; auto.
Qed.

Lemma add_not_negative (x y : float) :
  (x <? 0) = false -> (y <? 0) = false -> (x + y <? 0) = false.
Proof.
  rewrite !ltb_zero, !negb_false_iff, FloatAxioms.add_spec. apply SFadd_not_negative.
Qed.

Lemma mul_not_negative (x y : float) :
  (x <? 0) = false -> (y <? 0) = false -> (x * y <? 0) = false.
Proof.
  rewrite !ltb_zero, !negb_false_iff, FloatAxioms.mul_spec. apply SFmul_not_negative.
Qed.

Lemma div_not_negative (x c : float) (m : positive) (e : Z) :
  Prim2SF c = S754_finite false m e -> (x <? 0) = false -> (x / c <? 0) = false.
Proof.
  intros Hc. rewrite !ltb_zero, !negb_false_iff, FloatAxioms.div_spec. unfold SF64div. rewrite Hc.
  apply SFdiv_not_negative.
Qed.

(** [x - y] is zero only if [x <= y]: a division by [x - y] that is guarded
    by the test [x <= y] never meets a zero divisor. *)
Lemma sub_nonzero (x y : float) : (x <=? y) = false -> (x - y =? 0) = false.
Proof.
  rewrite FloatAxioms.leb_spec, FloatAxioms.eqb_spec, FloatAxioms.sub_spec. change (Prim2SF 0) with (S754_zero false).
  apply SFsub_nonzero; apply Prim2SF_valid.
Qed.

Lemma mul_one (x : float) : x * 1 = x.
Proof.
  apply Prim2SF_inj. rewrite FloatAxioms.mul_spec. apply SFmul_one, Prim2SF_valid.
Qed.

Lemma abs_sub_comm (x y : float) : abs (x - y) = abs (y - x).
Proof.
  apply Prim2SF_inj. rewrite !FloatAxioms.abs_spec, !FloatAxioms.sub_spec. apply SFabs_sub_comm.
Qed.

(** A number that is neither below [-t] nor within [t] of zero is not
    negative. *)
Lemma beyond_tolerance_not_negative (d t : float) (m : positive) (e : Z) :
  Prim2SF t = S754_finite false m e ->
  (d <? - t) = false -> (abs d <=? t) = false -> (d <? 0) = false.
Proof.
  intros Ht. rewrite ltb_zero, negb_false_iff, FloatAxioms.ltb_spec, FloatAxioms.leb_spec, FloatAxioms.opp_spec, FloatAxioms.abs_spec, Ht.
  destruct (Prim2SF d) as [s|s| |s md ed]; try destruct s; cbn; try congruence.
  destruct (ed ?= e)%Z; try congruence.
  destruct (PosDef.Pos.compare_cont Eq md m); cbn; congruence.
Qed.

(** *** Transitivity *)

Lemma SFcompare_Lt_trans (x y z : spec_float) :
  SFcompare x y = Some Lt -> SFcompare y z = Some Lt -> SFcompare x z = Some Lt.
Proof.
  destruct x as [sx|sx| |sx mx ex], y as [sy|sy| |sy my ey], z as [sz|sz| |sz mz ez];
    try destruct sx; try destruct sy; try destruct sz; cbn; try congruence.
  all: change (PosDef.Pos.compare_cont Eq mx my) with (mx ?= my)%positive;
    change (PosDef.Pos.compare_cont Eq my mz) with (my ?= mz)%positive;
    change (PosDef.Pos.compare_cont Eq mx mz) with (mx ?= mz)%positive;
    destruct (Z.compare_spec ex ey), (Z.compare_spec ey ez), (Z.compare_spec ex ez);
    try congruence; try lia; subst;
    destruct (Pos.compare_spec mx my), (Pos.compare_spec my mz), (Pos.compare_spec mx mz);
    cbn; try congruence; try lia.
Qed.


Lemma ltb_trans (x y z : float) : (x <? y) = true -> (y <? z) = true -> (x <? z) = true.
Proof.
  rewrite !FloatAxioms.ltb_spec. unfold SFltb.
  destruct (SFcompare (Prim2SF x) (Prim2SF y)) as [[]|] eqn:E1; try discriminate.
  destruct (SFcompare (Prim2SF y) (Prim2SF z)) as [[]|] eqn:E2; try discriminate.
  now rewrite (SFcompare_Lt_trans _ _ _ E1 E2).
Qed.


(** A number above a positive tolerance [t] is neither below [-t] nor
    within [t] of zero. *)
Lemma above_tolerance (d t : float) (m : positive) (e : Z) :
  Prim2SF t = S754_finite false m e ->
  (t <? d) = true -> (d <? - t) = false /\ (abs d <=? t) = false.
Proof.
  intros Ht. rewrite !FloatAxioms.ltb_spec, FloatAxioms.leb_spec, FloatAxioms.opp_spec, FloatAxioms.abs_spec, Ht.
  unfold SFltb, SFleb.
  destruct (Prim2SF d) as [s|s| |s md ed]; try destruct s; cbn; try congruence; auto.
  change (PosDef.Pos.compare_cont Eq m md) with (m ?= md)%positive.
  change (PosDef.Pos.compare_cont Eq md m) with (md ?= m)%positive.
  rewrite (Z.compare_antisym e ed), (Pos.compare_antisym m md).
  destruct (e ?= ed)%Z; cbn; try congruence; auto.
  destruct (m ?= md)%positive; cbn; try congruence; auto.
Qed.

(** *** Results that are numbers *)

Lemma shr_nonneg (mrs : shr_record) (e n : Z) :
  (0 <= shr_m mrs)%Z -> (0 <= shr_m (fst (shr mrs e n)))%Z.
Proof.
  intros H. unfold shr. destruct n as [|n|n]; cbn [fst]; try assumption.
  rewrite iter_pos_nat, shr_iter_m by assumption. apply Z.div_pos; lia.
Qed.

Lemma binary_round_aux_not_nan (s : bool) (m e : Z) (l : location) :
  (0 <= m)%Z -> SFis_nan (binary_round_aux prec emax s m e l) = false.
Proof.
  intros Hm. unfold binary_round_aux, shr_fexp.
  pose proof (shr_nonneg (shr_record_of_loc m l) e
                (fexp prec emax (Zdigits2 m + e) - e)
                ltac:(rewrite shr_record_of_loc_m; exact Hm)) as H1.
  destruct (shr (shr_record_of_loc m l) e _) as [mrs' e']. cbn [fst] in H1.
  pose proof (round_nearest_even_ge (shr_m mrs') (loc_of_shr_record mrs')) as Hr.
  set (m2 := round_nearest_even (shr_m mrs') (loc_of_shr_record mrs')) in *.
  pose proof (shr_nonneg (shr_record_of_loc m2 loc_Exact) e'
                (fexp prec emax (Zdigits2 m2 + e') - e')
                ltac:(rewrite shr_record_of_loc_m; lia)) as H2.
  destruct (shr (shr_record_of_loc m2 loc_Exact) e' _) as [mrs'' e'']. cbn [fst] in H2.
  destruct (shr_m mrs''); [reflexivity| |lia].
  destruct (e'' <=? emax - prec)%Z; reflexivity.
Qed.

Lemma binary_normalize_not_nan (m e : Z) (szero : bool) :
  SFis_nan (binary_normalize prec emax m e szero) = false.
Proof.
  destruct m; [reflexivity| |]; cbn [binary_normalize]; unfold binary_round;
    destruct (shl_align _ _ _); apply binary_round_aux_not_nan; lia.
Qed.

Lemma SFsub_not_nan (x y : spec_float) :
  SFltb y x = true -> SFis_nan (SFsub prec emax x y) = false.
Proof.
  destruct x as [sx|sx| |sx mx ex], y as [sy|sy| |sy my ey];
    try destruct sx; try destruct sy; cbn [SFsub SFis_nan negb]; try reflexivity;
    try (cbn; congruence).
  all: intros _; apply binary_normalize_not_nan.
Qed.

Lemma SFdiv_core_binary_nonneg (m1 m2 : positive) (e1 e2 : Z) :
  (0 <= fst (fst (SFdiv_core_binary prec emax (Z.pos m1) e1 (Z.pos m2) e2)))%Z.
Proof.
  unfold SFdiv_core_binary.
  set (s := (e1 - e2 - _)%Z).
  set (m' := match s with Z0 => Z.pos m1 | Z.pos _ => Z.shiftl (Z.pos m1) s | Z.neg _ => 0%Z end).
  assert (Hm : (0 <= m')%Z).
  { subst m'. destruct s; try lia. apply Z.shiftl_nonneg. lia. }
  pose proof (Z.div_pos m' (Z.pos m2) Hm ltac:(lia)) as Hq.
  unfold Z.div in Hq. destruct (Z.div_eucl m' (Z.pos m2)) as [q r]. exact Hq.
Qed.

(** A quotient is not a number only for [0/0] and for two infinities. *)
Lemma SFdiv_not_nan (x y : spec_float) :
  SFis_nan x = false -> SFis_nan y = false -> SFnonzero x = true ->
  SFis_infinity x && SFis_infinity y = false ->
  SFis_nan (SFdiv prec emax x y) = false.
Proof.
  destruct x as [sx|sx| |sx mx ex], y as [sy|sy| |sy my ey];
    cbn [SFdiv SFis_nan SFnonzero SFis_infinity andb]; try congruence; try reflexivity.
  intros _ _ _ _.
  pose proof (SFdiv_core_binary_nonneg mx my ex ey) as Hq.
  destruct (SFdiv_core_binary prec emax (Z.pos mx) ex (Z.pos my) ey) as [[mz ez] lz].
  now apply binary_round_aux_not_nan.
Qed.

Lemma SFmul_finite_not_nan (x : spec_float) (s : bool) (m : positive) (e : Z) :
  SFis_nan x = false -> SFis_nan (SFmul prec emax x (S754_finite s m e)) = false.
Proof.
  destruct x as [sx|sx| |sx mx ex]; cbn [SFmul SFis_nan]; try congruence; try reflexivity.
  intros _. apply binary_round_aux_not_nan. lia.
Qed.

Lemma is_nan_SF (x : float) : is_nan x = SFis_nan (Prim2SF x).
Proof.
  destruct (is_nan x) eqn:E.
  - apply is_nan_spec in E. now rewrite E.
  - destruct (Prim2SF x) eqn:Ex; try reflexivity.
    apply is_nan_spec in Ex. congruence.
Qed.

Lemma is_infinity_SF (x : float) : is_infinity x = SFis_infinity (Prim2SF x).
Proof.
  unfold is_infinity. rewrite FloatAxioms.eqb_spec, FloatAxioms.abs_spec.
  change (Prim2SF infinity) with (S754_infinity false).
  destruct (Prim2SF x) as [s|s| |s m e]; reflexivity.
Qed.

Lemma ltb_true_not_nan (x y : float) : (x <? y) = true -> is_nan x = false /\ is_nan y = false.
Proof. intros H. apply leb_true_not_nan. now apply ltb_true_leb_true. Qed.

Lemma ltb_zero_nonzero (x : float) : (0 <? x) = true -> SFnonzero (Prim2SF x) = true.
Proof.
  rewrite FloatAxioms.ltb_spec. change (Prim2SF 0) with (S754_zero false).
  destruct (Prim2SF x) as [s|s| |s m e]; try destruct s; cbn; congruence.
Qed.

Lemma sub_not_nan (x y : float) : (y <? x) = true -> is_nan (x - y) = false.
Proof. rewrite FloatAxioms.ltb_spec, is_nan_SF, FloatAxioms.sub_spec. apply SFsub_not_nan. Qed.

(** The percentage [d / r * 100] of a positive [d] is a number unless [d]
    and [r] are both infinite. *)
Lemma percentage_is_nan (d r : float) :
  (0 <? d) = true -> is_nan r = false ->
  is_nan (d / r * 100) = is_infinity d && is_infinity r.
Proof.
  intros Hd Hr. pose proof (ltb_zero_nonzero d Hd) as Hnz.
  apply ltb_true_not_nan in Hd as [_ Hd].
  rewrite is_nan_SF in *. rewrite !is_infinity_SF, FloatAxioms.mul_spec, FloatAxioms.div_spec.
  change (Prim2SF 100) with (S754_finite false 7036874417766400 (-46)).
  destruct (SFis_infinity (Prim2SF d) && SFis_infinity (Prim2SF r)) eqn:E.
  - apply andb_true_iff in E as [E1 E2].
    destruct (Prim2SF d); try discriminate. destruct (Prim2SF r); try discriminate.
    reflexivity.
  - apply SFmul_finite_not_nan. now apply SFdiv_not_nan.
Qed.

(** One step of the [result] monad: sequencing, [raise_if], [try_except]. *)
Ltac run := cbv beta iota delta [mbind result_bind bind raise_if try_except].

(** ** The calculation library *)

Section CalculationFacts.
Context {rt : PyRuntime}.

Lemma clamp_0_100_limited (x : float) : limited_to_0_100 x (clamp_0_100 x).
Proof.
  unfold limited_to_0_100, clamp_0_100.
  destruct (x <? 0) eqn:E0; [|destruct (100 <? x) eqn:E100];
    repeat split; intros; try congruence.
  pose proof (ltb_trans 100 x 0 ltac:(assumption) E0). discriminate.
Qed.

(** The clamped value is never below 0 and never above 100. *)
Lemma clamp_0_100_bounds (x : float) :
  (clamp_0_100 x <? 0) = false /\ (100 <? clamp_0_100 x) = false.
Proof.
  unfold clamp_0_100.
  destruct (x <? 0) eqn:E0; [split; reflexivity|].
  destruct (100 <? x) eqn:E100; [split; reflexivity|].
  now split.
Qed.

Lemma clamp_0_100_is_nan (x : float) : is_nan (clamp_0_100 x) = is_nan x.
Proof.
  unfold clamp_0_100.
  destruct (x <? 0) eqn:E0.
  { apply ltb_true_not_nan in E0 as [-> _]. reflexivity. }
  destruct (100 <? x) eqn:E100; [|reflexivity].
  apply ltb_true_not_nan in E100 as [_ ->]. reflexivity.
Qed.

(** A value that is a number and neither below 0 nor above 100 lies in
    [[0,100]]. *)
Lemma number_within_0_100 (r : float) :
  (r <? 0) = false -> (100 <? r) = false -> is_nan r = false -> within 0 100 r.
Proof.
  intros H0 H100 Hn. split; apply ltb_false_leb_true; auto.
Qed.

Lemma float_div_defined (x y : float) : (y =? 0) = false -> float_div x y = Ok (x / y).
Proof. intros H. unfold float_div. now rewrite H. Qed.

(** The division of the efficiency formula never meets a zero divisor: it is
    reached only when [T_in <= T_wb] is false. *)
Lemma efficiency_quotient_defined (d T_in T_wb : float) :
  (T_in <=? T_wb) = false -> float_div d (T_in - T_wb) = Ok (d / (T_in - T_wb)).
Proof. intros H. apply float_div_defined, sub_nonzero, H. Qed.

Lemma tolerance_opp : - TEMPERATURE_TOLERANCE = -0.1.
Proof. reflexivity. Qed.

(** The outcome of the efficiency calculation in each branch of the code. *)
Lemma efficiency_cases (T_in T_out T_wb : float) :
  calculate_cooling_tower_efficiency T_in T_out T_wb
  = if T_in - T_out <? -0.1
    then Raise (ValueError ("Cannot calculate cooling tower efficiency: "
                            ++ reversed_drop_msg T_in T_out (T_in - T_out)))
    else if abs (T_in - T_out) <=? 0.1 then Ok 0
    else if T_in <=? T_wb then Ok 0
    else Ok (clamp_0_100 ((T_in - T_out) / (T_in - T_wb) * 100)).
Proof.
  unfold calculate_cooling_tower_efficiency, calculate_cooling_tower_efficiency_body.
  rewrite tolerance_opp. unfold TEMPERATURE_TOLERANCE.
  destruct (T_in - T_out <? -0.1); run; [reflexivity|].
  destruct (abs (T_in - T_out) <=? 0.1); [reflexivity|].
  destruct (T_in <=? T_wb) eqn:E; [reflexivity|].
  rewrite (efficiency_quotient_defined _ _ _ E). reflexivity.
Qed.

(** C4 (amended): [calculate_cooling_tower_efficiency] follows the ordered
    edge-case policy, every test being the comparison of binary64 on the
    computed difference [d = T_in - T_out]: if [d < -0.1] it raises
    [ValueError]; else if [|d| <= 0.1] it returns [0.0]; else if
    [T_in <= T_wb] it returns [0.0]; otherwise it returns
    [d / (T_in - T_wb) * 100] clamped to [[0,100]], the division never
    raising.  Whenever [d > 0.1] and [T_wb < T_in], the result is never below
    0 nor above 100, but it is NaN exactly when [d] and [T_in - T_wb] are both
    infinite; it lies in [[0,100]] in every other case. *)
Theorem efficiency_edge_case_policy (T_in T_out T_wb : float) :
  ((T_in - T_out <? -0.1) = true ->
     exists msg, calculate_cooling_tower_efficiency T_in T_out T_wb = Raise (ValueError msg))
  /\ ((T_in - T_out <? -0.1) = false -> (abs (T_in - T_out) <=? 0.1) = true ->
        calculate_cooling_tower_efficiency T_in T_out T_wb = Ok 0)
  /\ ((T_in - T_out <? -0.1) = false -> (abs (T_in - T_out) <=? 0.1) = false ->
      (T_in <=? T_wb) = true ->
        calculate_cooling_tower_efficiency T_in T_out T_wb = Ok 0)
  /\ ((T_in - T_out <? -0.1) = false -> (abs (T_in - T_out) <=? 0.1) = false ->
      (T_in <=? T_wb) = false ->
        exists r, calculate_cooling_tower_efficiency T_in T_out T_wb = Ok r
                  /\ limited_to_0_100 ((T_in - T_out) / (T_in - T_wb) * 100) r)
  /\ ((0.1 <? T_in - T_out) = true -> (T_wb <? T_in) = true ->
        exists r, calculate_cooling_tower_efficiency T_in T_out T_wb = Ok r
                  /\ (r <? 0) = false /\ (100 <? r) = false
                  /\ is_nan r = is_infinity (T_in - T_out) && is_infinity (T_in - T_wb)
                  /\ (is_nan r = false -> within 0 100 r)).
Proof.
  rewrite efficiency_cases.
  split; [|split; [|split; [|split]]].
  - intros ->. eauto.
  - intros -> ->. reflexivity.
  - intros -> -> ->. reflexivity.
  - intros -> -> ->. eexists. split; [reflexivity | apply clamp_0_100_limited].
  - intros Hd Hwb.
    destruct (above_tolerance (T_in - T_out) 0.1 _ _ eq_refl Hd) as [H1 H2].
    change (opp 0.1) with (-0.1) in H1.
    rewrite H1, H2, (ltb_true_leb_false _ _ Hwb).
    eexists. split; [reflexivity|].
    destruct (clamp_0_100_bounds ((T_in - T_out) / (T_in - T_wb) * 100)) as [B0 B100].
    split; [exact B0|]. split; [exact B100|].
    split.
    + rewrite clamp_0_100_is_nan. apply percentage_is_nan.
      * apply (ltb_trans 0 0.1); [reflexivity | exact Hd].
      * now apply sub_not_nan.
    + now apply number_within_0_100.
Qed.

Lemma capacity_cases (flow_lpm T_in T_out : float) :
  calculate_cooling_capacity flow_lpm T_in T_out
  = if flow_lpm <=? 0
    then Raise (ValueError ("Cannot calculate cooling capacity: Water flow must be positive, got "
                            ++ float_str flow_lpm ++ " L/min"))
    else if T_in - T_out <? -0.1
    then Raise (ValueError ("Cannot calculate cooling capacity: "
                            ++ reversed_drop_msg T_in T_out (T_in - T_out)))
    else if abs (T_in - T_out) <=? 0.1 then Ok 0
    else Ok (flow_lpm / 60 * 4.186 * (T_in - T_out)).
Proof.
  unfold calculate_cooling_capacity, calculate_cooling_capacity_body.
  rewrite tolerance_opp. unfold TEMPERATURE_TOLERANCE.
  destruct (flow_lpm <=? 0); run; [reflexivity|].
  destruct (T_in - T_out <? -0.1); run; [reflexivity|].
  destruct (abs (T_in - T_out) <=? 0.1); [reflexivity|].
  change (1000 / 1000) with 1. now rewrite mul_one.
Qed.


(** The square root of the Stull formula is always taken of a number that
    is not negative once the humidity guard has passed. *)
Lemma stull_sqrt_defined (RH : float) :
  (RH <? 0) = false -> math_sqrt (RH + 8.313659) = Ok (sqrt (RH + 8.313659)).
Proof.
  intros H. unfold math_sqrt.
  now rewrite (add_not_negative RH 8.313659 H eq_refl).
Qed.

Lemma wet_bulb_cases (T RH : float) :
  wet_bulb_stull T RH
  = if (RH <? 0) || (100 <? RH)
    then Raise (ValueError ("Cannot calculate wet bulb temperature: "
                            ++ "Relative humidity must be between 0-100%, got "
                            ++ float_str RH ++ "%"))
    else if (T <? -50) || (60 <? T)
    then Raise (ValueError ("Cannot calculate wet bulb temperature: "
                            ++ "Temperature must be between -50°C to 60°C, got "
                            ++ float_str T ++ "°C"))
    else Ok (T * math_atan (0.151977 * sqrt (RH + 8.313659))
             + math_atan (T + RH)
             - math_atan (RH - 1.676331)
             + 0.00391838 * float_pow RH 1.5 * math_atan (0.023101 * RH)
             - 4.686035).
Proof.
  unfold wet_bulb_stull, wet_bulb_stull_body.
  destruct (RH <? 0) eqn:E0; [reflexivity|].
  destruct (100 <? RH); [reflexivity|]. cbn [orb]. run.
  destruct ((T <? -50) || (60 <? T)); [reflexivity|].
  now rewrite (stull_sqrt_defined RH E0).
Qed.

Lemma outside_guard (lo hi x : float) : outside lo hi x -> (x <? lo) || (hi <? x) = true.
Proof. intros [H|H]; rewrite H; [reflexivity | apply orb_true_r]. Qed.

Lemma within_guard (lo hi x : float) : within lo hi x -> (x <? lo) || (hi <? x) = false.
Proof.
  intros [H1 H2]. apply leb_true_ltb_false in H1, H2. now rewrite H1, H2.
Qed.

(** C8: [wet_bulb_stull T RH] raises [ValueError] whenever [RH] is outside
    [[0,100]] or [T] is outside [[-50,60]], and the message carries the
    offending value and the bound (the humidity is tested first); for every
    [(T, RH)] inside both bounds it returns the value of the Stull (2011)
    formula.  The result is a function of [T] and [RH] alone. *)
Theorem wet_bulb_stull_contract (T RH : float) :
  (outside 0 100 RH ->
     wet_bulb_stull T RH
     = Raise (ValueError ("Cannot calculate wet bulb temperature: "
                          ++ "Relative humidity must be between 0-100%, got "
                          ++ float_str RH ++ "%")))
  /\ (within 0 100 RH -> outside (-50) 60 T ->
        wet_bulb_stull T RH
        = Raise (ValueError ("Cannot calculate wet bulb temperature: "
                             ++ "Temperature must be between -50°C to 60°C, got "
                             ++ float_str T ++ "°C")))
  /\ (outside (-50) 60 T -> exists msg, wet_bulb_stull T RH = Raise (ValueError msg))
  /\ (within 0 100 RH -> within (-50) 60 T ->
        wet_bulb_stull T RH
        = Ok (T * math_atan (0.151977 * sqrt (RH + 8.313659))
              + math_atan (T + RH)
              - math_atan (RH - 1.676331)
              + 0.00391838 * float_pow RH 1.5 * math_atan (0.023101 * RH)
              - 4.686035)).
Proof.
  rewrite wet_bulb_cases.
  split; [|split; [|split]].
  - intros H. now rewrite (outside_guard _ _ _ H).
  - intros H1 H2. now rewrite (within_guard _ _ _ H1), (outside_guard _ _ _ H2).
  - intros H. rewrite (outside_guard _ _ _ H). destruct ((RH <? 0) || (100 <? RH)); eauto.
  - intros H1 H2. now rewrite (within_guard _ _ _ H1), (within_guard _ _ _ H2).
Qed.

End CalculationFacts.

(** ** The quality heuristic *)



(** ** The reading processor: calculations after validation *)

Section ProcessorFacts.
Context {rt : PyRuntime}.

Lemma process_data_validated (data : gmap string pyval) (now : string) (v : validated) :
  validate data = Ok v -> process_data data now = Processed (assemble now v).
Proof. intros H. unfold process_data. rewrite H. reflexivity. Qed.

Lemma process_data_rejected (data : gmap string pyval) (now msg : string) :
  validate data = Raise (ValueError msg) ->
  process_data data now
  = Failed (ErrorRecord.mk "data_validation_error" msg now "failed").
Proof. intros H. unfold process_data. rewrite H. reflexivity. Qed.

Lemma process_data_processed_inv (data : gmap string pyval) (now : string)
    (r : ProcessedReading.t) :
  process_data data now = Processed r ->
  exists v, validate data = Ok v /\ r = assemble now v.
Proof.
  unfold process_data. destruct (validate data) as [v|e]; cbn.
  - intros [= <-]. eauto.
  - destruct e; discriminate.
Qed.

(** The derived fields and the error list of the assembled record, block by
    block. *)
Lemma assemble_fields (now : string) (v : validated) :
  let wb := wet_bulb_stull (v_air_temp_in v) (v_air_humidity_in v) in
  let eff := efficiency_attempt (v_water_temp_in v) (v_water_temp_out v) (value_of wb) in
  let cap := calculate_cooling_capacity (v_water_flow_lpm v) (v_water_temp_in v)
               (v_water_temp_out v) in
  let r := assemble now v in
  ProcessedReading.wet_bulb_temp_in r = stored wb
  /\ ProcessedReading.cooling_efficiency r = stored eff
  /\ ProcessedReading.cooling_capacity r = stored cap
  /\ ProcessedReading.calculation_errors r
     = snd (guarded "cooling_capacity_calculation_error" cap
         (snd (guarded "cooling_efficiency_calculation_error" eff
            (snd (guarded "wet_bulb_calculation_error" wb [])))))
  /\ ProcessedReading.processing_status r
     = status_of (ProcessedReading.calculation_errors r).
Proof.
  cbv zeta. unfold assemble, stored.
  destruct (wet_bulb_stull _ _) as [wb|e1]; cbn [guarded value_of];
  destruct (efficiency_attempt _ _ _) as [eff|e2]; cbn [guarded value_of];
  destruct (calculate_cooling_capacity _ _ _) as [cap|e3]; cbn [guarded value_of];
  repeat split.
Qed.

(** The identifiers of the assembled record are those of the reading. *)
Lemma assemble_inputs_ids (now : string) (v : validated) :
  ProcessedReading.device_id (assemble now v) = v_device_id v
  /\ ProcessedReading.timestamp (assemble now v) = v_timestamp v.
Proof.
  unfold assemble.
  destruct (wet_bulb_stull _ _); cbn [guarded];
  destruct (efficiency_attempt _ _ _); cbn [guarded];
  destruct (calculate_cooling_capacity _ _ _); cbn [guarded];
  split; reflexivity.
Qed.

(** C1: once validation has passed, [process_data] returns a processed
    reading, never an error record, and each derived field is the outcome of
    its own calculation whatever happened to the others: the wet-bulb field
    is the rounded value of [wet_bulb_stull], or null when it raised; the
    capacity field is the rounded value of [calculate_cooling_capacity], or
    null when it raised, also when the wet-bulb or the efficiency
    calculation raised; and the efficiency field is the rounded value of
    [calculate_cooling_tower_efficiency] on the water temperatures and the
    computed wet-bulb temperature, or null when that calculation raised,
    also when the capacity calculation raised.  Only a failed wet-bulb
    calculation leaves the efficiency uncomputed. *)
Theorem calculations_fault_isolated (data : gmap string pyval) (now : string) (v : validated) :
  validate data = Ok v ->
  exists r,
    process_data data now = Processed r
    /\ ProcessedReading.wet_bulb_temp_in r
       = stored (wet_bulb_stull (v_air_temp_in v) (v_air_humidity_in v))
    /\ ProcessedReading.cooling_capacity r
       = stored (calculate_cooling_capacity (v_water_flow_lpm v) (v_water_temp_in v)
                   (v_water_temp_out v))
    /\ (forall w,
          wet_bulb_stull (v_air_temp_in v) (v_air_humidity_in v) = Ok w ->
          ProcessedReading.cooling_efficiency r
          = stored (calculate_cooling_tower_efficiency (v_water_temp_in v)
                      (v_water_temp_out v) w))
    /\ (forall e,
          wet_bulb_stull (v_air_temp_in v) (v_air_humidity_in v) = Raise e ->
          ProcessedReading.cooling_efficiency r = None).
Proof.
  intros Hv. exists (assemble now v).
  split; [now apply process_data_validated|].
  destruct (assemble_fields now v) as (Hwb & Heff & Hcap & _).
  split; [exact Hwb|]. split; [exact Hcap|].
  split.
  - intros w Hw. rewrite Heff, Hw. reflexivity.
  - intros e He. rewrite Heff, He. reflexivity.
Qed.

Lemma status_of_success (errs : list string) : status_of errs = "success" <-> errs = [].
Proof. destruct errs; cbn; split; intros H; congruence. Qed.

Lemma status_of_partial (errs : list string) :
  errs <> [] -> status_of errs = "partial_success".
Proof. destruct errs; cbn; congruence. Qed.

(** C2: on every input for which [process_data] returns a processed reading,
    [processing_status] is ["success"] exactly when [calculation_errors] is
    empty, and ["partial_success"] otherwise. *)
Theorem status_success_iff_no_errors (data : gmap string pyval) (now : string)
    (r : ProcessedReading.t) :
  process_data data now = Processed r ->
  (ProcessedReading.processing_status r = "success"
   <-> ProcessedReading.calculation_errors r = [])
  /\ (ProcessedReading.calculation_errors r <> [] ->
      ProcessedReading.processing_status r = "partial_success").
Proof.
  intros H. apply process_data_processed_inv in H as (v & _ & ->).
  destruct (assemble_fields now v) as (_ & _ & _ & _ & Hst).
  rewrite Hst. split; [apply status_of_success | apply status_of_partial].
Qed.

End ProcessorFacts.

(** ** The reading processor: validation *)

Section ValidationFacts.
Context {rt : PyRuntime}.

Lemma int_to_float_cases (z : Z) :
  (exists f, int_to_float z = Ok f)
  \/ int_to_float z = Raise (OverflowError "int too large to convert to float").
Proof. unfold int_to_float. destruct (is_infinity _); eauto. Qed.

Lemma py_float_raises (v : pyval) (e : exn) :
  py_float v = Raise e ->
  (exists m, e = ValueError m) \/ (exists m, e = TypeError m)
  \/ e = OverflowError "int too large to convert to float".
Proof.
  destruct v; cbn; try discriminate.
  - intros [= <-]. eauto.
  - destruct (int_to_float_cases z) as [[f ->]| ->]; [discriminate|].
    intros [= <-]. auto.
  - destruct (float_of_string s); [discriminate|]. intros [= <-]. eauto.
  - intros [= <-]. eauto.
Qed.

Lemma py_float_not_None (v : pyval) (x : float) : py_float v = Ok x -> v <> PNone.
Proof. intros H ->. discriminate. Qed.

(** One iteration of the screening loop classifies its field, unless the
    field is an integer too large for a float: the [OverflowError] of the
    conversion is not caught. *)
Lemma check_field_classifies (missing invalid : list string) (field : string * pyval) :
  check_field (missing, invalid) field
  = if overflows field
    then Raise (OverflowError "int too large to convert to float")
    else Ok ((missing ++ if is_missing field then [fst field] else [])%list,
             (invalid ++ if is_invalid field then [fst field] else [])%list).
Proof.
  destruct field as [name v].
  unfold check_field, is_invalid, overflows, is_missing, append. cbn [fst snd].
  destruct v; cbn [negb andb]; rewrite ?app_nil_r; try reflexivity;
    destruct (String.eqb name "device_id"); cbn [negb andb]; rewrite ?app_nil_r;
    try reflexivity.
  all: match goal with
       | |- context [py_float ?v] =>
           let E := fresh "E" in
           destruct (py_float v) as [x|e] eqn:E; run;
           [ destruct (x =? -999); rewrite ?app_nil_r; reflexivity
           | destruct (py_float_raises _ _ E) as [[m ->]|[[m ->]| ->]]; reflexivity ]
       end.
Qed.

Lemma check_fields_classifies (fields : list (string * pyval)) (missing invalid : list string) :
  List.filter overflows fields = [] ->
  check_fields fields (missing, invalid)
  = Ok ((missing ++ missing_among fields)%list, (invalid ++ invalid_among fields)%list).
Proof.
  revert missing invalid.
  induction fields as [|field rest IH]; intros missing invalid; cbn [check_fields List.filter].
  - intros _. unfold missing_among, invalid_among. cbn. now rewrite !app_nil_r.
  - rewrite check_field_classifies.
    destruct (overflows field); [discriminate|]. intros Hrest. run. rewrite (IH _ _ Hrest).
    unfold missing_among, invalid_among. cbn [List.filter].
    destruct (is_missing field), (is_invalid field); cbn [map];
      rewrite <- ?app_assoc, ?app_nil_r; reflexivity.
Qed.

Lemma check_fields_overflow (fields : list (string * pyval)) (acc : list string * list string) :
  List.filter overflows fields <> [] ->
  check_fields fields acc = Raise (OverflowError "int too large to convert to float").
Proof.
  revert acc.
  induction fields as [|field rest IH]; intros [missing invalid]; cbn [check_fields List.filter].
  - congruence.
  - rewrite check_field_classifies.
    destruct (overflows field); [reflexivity|]. intros Hrest. run. now apply IH.
Qed.

Lemma screening_result (data : gmap string pyval) :
  overflowing_names data = [] ->
  check_fields (required_fields data) ([], []) = Ok (missing_names data, invalid_names data).
Proof.
  intros H. apply check_fields_classifies.
  unfold overflowing_names in H. now apply map_eq_nil in H.
Qed.

Lemma screening_overflow (data : gmap string pyval) :
  overflowing_names data <> [] ->
  check_fields (required_fields data) ([], [])
  = Raise (OverflowError "int too large to convert to float").
Proof.
  intros H. apply check_fields_overflow. intros E. apply H.
  unfold overflowing_names. now rewrite E.
Qed.

(** A field that is out of range is among the invalid ones. *)
Lemma overflows_invalid (field : string * pyval) :
  overflows field = true -> is_invalid field = true.
Proof.
  unfold overflows, is_invalid.
  destruct (negb (is_missing field) && negb (String.eqb (fst field) "device_id"));
    [|discriminate].
  destruct (py_float (snd field)) as [x|[]]; cbn; congruence.
Qed.

Lemma no_invalid_no_overflow (data : gmap string pyval) :
  invalid_names data = [] -> overflowing_names data = [].
Proof.
  unfold invalid_names, invalid_among, overflowing_names. intros H.
  apply map_eq_nil in H. 
  induction (required_fields data) as [|field rest IH]; [reflexivity|].
  cbn [List.filter] in *.
  destruct (overflows field) eqn:E.
  - now rewrite (overflows_invalid _ E) in H.
  - destruct (is_invalid field); [discriminate|]. now apply IH.
Qed.

Lemma nonempty_true {A : Type} (l : list A) : l <> [] -> nonempty l = true.
Proof. destruct l; [congruence | reflexivity]. Qed.

(** A reading with a missing field is rejected with the list of the missing
    fields, whatever else is wrong with it, as long as no field is out of
    range. *)
Lemma validate_missing (data : gmap string pyval) :
  overflowing_names data = [] ->
  missing_names data <> [] ->
  validate data
  = Raise (ValueError ("Missing required fields: " ++ join_names (missing_names data))).
Proof.
  intros Ho H. unfold validate. rewrite (screening_result data Ho). run.
  now rewrite (nonempty_true _ H).
Qed.

(** A reading with no missing field and an invalid one is rejected with the
    list of the invalid fields, as long as no field is out of range. *)
Lemma validate_invalid (data : gmap string pyval) :
  overflowing_names data = [] ->
  missing_names data = [] -> invalid_names data <> [] ->
  validate data
  = Raise (ValueError ("Invalid sensor data (value = -999): "
                       ++ join_names (invalid_names data))).
Proof.
  intros Ho Hm Hi. unfold validate. rewrite (screening_result data Ho). run.
  rewrite Hm. cbn [nonempty]. now rewrite (nonempty_true _ Hi).
Qed.

(** A reading with a field out of range is not rejected by the validation:
    the conversion error ends the processing. *)
Lemma process_data_overflow (data : gmap string pyval) (now : string) :
  overflowing_names data <> [] ->
  validate data = Raise (OverflowError "int too large to convert to float")
  /\ process_data data now
     = Failed (ErrorRecord.mk "processing_error"
                 "Data processing error: int too large to convert to float" now "failed").
Proof.
  intros H.
  assert (Hv : validate data = Raise (OverflowError "int too large to convert to float")).
  { unfold validate. now rewrite (screening_overflow data H). }
  split; [exact Hv|]. unfold process_data. now rewrite Hv.
Qed.

End ValidationFacts.

(** ** Field names inside a message *)

Lemma string_app_cons (c : Ascii.ascii) (s q : string) : String c s ++ q = String c (s ++ q).
Proof. reflexivity. Qed.

Lemma string_app_nil_r (s : string) : s ++ "" = s.
Proof. induction s as [|c s IH]; [reflexivity|]. now rewrite string_app_cons, IH. Qed.

Lemma string_app_assoc (s t u : string) : (s ++ t) ++ u = s ++ t ++ u.
Proof. induction s as [|c s IH]; [reflexivity|]. now rewrite !string_app_cons, IH. Qed.

Lemma substring_prefix (s q : string) : String.substring 0 (String.length s) (s ++ q) = s.
Proof.
  induction s as [|c s IH].
  - now destruct q.
  - change (String c (String.substring 0 (String.length s) (s ++ q)) = String c s).
    now rewrite IH.
Qed.

Lemma substring_skip (p s : string) (k : nat) :
  String.substring (String.length p) k (p ++ s) = String.substring 0 k s.
Proof. induction p as [|c p IH]; [reflexivity | exact IH]. Qed.

Lemma mentions_infix (name p q : string) : mentions name (p ++ name ++ q) = true.
Proof.
  unfold mentions. destruct (String.index 0 name (p ++ name ++ q)) eqn:E; [reflexivity|].
  exfalso. destruct name as [|c name].
  - apply String.index_correct4 in E. lia.
  - apply (String.index_correct3 0 (String.length p)) in E; [|discriminate|lia].
    apply E. rewrite substring_skip. apply substring_prefix.
Qed.

Lemma join_names_infix (name : string) (names : list string) :
  In name names -> exists p q, join_names names = p ++ name ++ q.
Proof.
  unfold join_names. induction names as [|n rest IH]; [intros []|].
  intros [->|Hin].
  - exists "". cbn [String.concat]. destruct rest.
    + exists "". now rewrite string_app_nil_r.
    + eexists. reflexivity.
  - destruct (IH Hin) as (p & q & Hpq). destruct rest as [|n' rest]; [destruct Hin|].
    exists (n ++ ", " ++ p), q.
    change (String.concat ", " (n :: n' :: rest))
      with (n ++ ", " ++ String.concat ", " (n' :: rest)).
    rewrite Hpq.
    now rewrite !string_app_assoc.
Qed.

(** A message that lists names mentions each of them. *)
Lemma listing_mentions (intro name : string) (names : list string) :
  In name names -> mentions name (intro ++ join_names names) = true.
Proof.
  intros Hin. destruct (join_names_infix name names Hin) as (p & q & ->).
  rewrite <- string_app_assoc. apply mentions_infix.
Qed.

(** ** The reading processor: rejected and accepted readings *)

Section ScreeningFacts.
Context {rt : PyRuntime}.

Lemma required_fields_numeric (data : gmap string pyval) (key name : string) :
  In (key, name) numeric_fields -> In (name, dict_get data key) (required_fields data).
Proof.
  unfold numeric_fields, required_fields. cbn [In].
  intros [H|[H|[H|[H|[H|[]]]]]]; injection H as <- <-; auto 10.
Qed.

Lemma numeric_field_name (key name : string) :
  In (key, name) numeric_fields -> String.eqb name "device_id" = false.
Proof.
  unfold numeric_fields. cbn [In].
  intros [H|[H|[H|[H|[H|[]]]]]]; injection H as <- <-; reflexivity.
Qed.

Lemma in_invalid_among (fields : list (string * pyval)) (field : string * pyval) :
  In field fields -> is_invalid field = true -> In (fst field) (invalid_among fields).
Proof.
  intros Hin Hm. unfold invalid_among. apply in_map. apply List.filter_In. now split.
Qed.

Lemma sentinel_is_invalid (name : string) (v : pyval) (x : float) :
  String.eqb name "device_id" = false ->
  py_float v = Ok x -> (x =? -999) = true -> is_invalid (name, v) = true.
Proof.
  intros Hn Hv Hx. unfold is_invalid, is_missing. cbn [fst snd].
  rewrite Hn, Hv, Hx.
  destruct v; [discriminate Hv | reflexivity ..].
Qed.

Lemma valid_is_not_invalid (name : string) (v : pyval) :
  valid_number v -> is_invalid (name, v) = false.
Proof.
  intros (x & Hv & Hx). unfold is_invalid. cbn [fst snd].
  rewrite Hv, Hx. apply andb_false_r.
Qed.

Lemma present_is_not_missing (name : string) (v : pyval) :
  v <> PNone -> is_missing (name, v) = false.
Proof. intros H. unfold is_missing. cbn [snd]. now destruct v. Qed.

Lemma valid_number_present (v : pyval) : valid_number v -> v <> PNone.
Proof. intros (x & Hv & _). exact (py_float_not_None _ _ Hv). Qed.

(** [float(v or 0)] succeeds wherever [float(v)] does, with the same number
    or with the zero that replaced a falsy [v]. *)
Lemma py_float_or_zero (v : pyval) (x : float) :
  py_float v = Ok x ->
  exists x', py_float (or_else v (PInt 0)) = Ok x' /\ (x' = x \/ x' = 0).
Proof.
  intros Hv. unfold or_else. destruct (truthy v); eauto.
Qed.

(** C7 (amended): a reading in which a required numeric field is exactly
    [-999] and no required numeric field is an integer too large for a
    float never passes validation, so no calculation runs: [process_data]
    returns an error record tagged [data_validation_error].  When no
    required field is missing, the message is the list of the invalid
    fields and mentions that field (under the name the processor reports it
    by); when a field is missing, the message lists the missing fields
    instead.  When some required numeric field is an integer too large for a
    float, the record is tagged [processing_error] instead, whatever the
    other fields hold. *)
Theorem sentinel_is_validation_error (data : gmap string pyval) (now key name : string)
    (x : float) :
  In (key, name) numeric_fields ->
  py_float (dict_get data key) = Ok x ->
  (x =? -999) = true ->
  (overflowing_names data = [] ->
   exists msg,
     validate data = Raise (ValueError msg)
     /\ process_data data now
        = Failed (ErrorRecord.mk "data_validation_error" msg now "failed")
     /\ (missing_names data = [] ->
         msg = "Invalid sensor data (value = -999): " ++ join_names (invalid_names data)
         /\ mentions name msg = true)
     /\ (missing_names data <> [] ->
         msg = "Missing required fields: " ++ join_names (missing_names data)))
  /\ (overflowing_names data <> [] ->
      process_data data now
      = Failed (ErrorRecord.mk "processing_error"
                  "Data processing error: int too large to convert to float" now "failed")).
Proof.
  intros Hf Hv Hx. split; [|intros Ho; apply (process_data_overflow data now Ho)].
  intros Ho.
  assert (Hin : In name (invalid_names data)).
  { apply (in_invalid_among _ (name, dict_get data key)).
    - now apply required_fields_numeric.
    - apply (sentinel_is_invalid _ _ x); [exact (numeric_field_name _ _ Hf) | assumption ..]. }
  destruct (missing_names data) as [|m ms] eqn:Hm.
  - assert (Hi : invalid_names data <> []) by (intros E; rewrite E in Hin; destruct Hin).
    eexists. split; [exact (validate_invalid data Ho Hm Hi)|].
    split; [exact (process_data_rejected _ _ _ (validate_invalid data Ho Hm Hi))|].
    split; [|congruence].
    intros _. split; [reflexivity | now apply listing_mentions].
  - assert (Hne : missing_names data <> []) by (rewrite Hm; discriminate).
    pose proof (validate_missing data Ho Hne) as Hval. rewrite Hm in Hval.
    eexists. split; [exact Hval|].
    split; [exact (process_data_rejected _ _ _ Hval)|].
    split; [discriminate | reflexivity].
Qed.

(** C6 (amended): as long as no required numeric field is an integer too
    large for a float, the two failure classes are reported one at a time,
    both as [data_validation_error].  A reading with at least one missing
    required field is rejected with a message that mentions every missing
    field, also when other fields are invalid (those are then not
    reported); a reading with no missing field and at least one invalid
    field is rejected with a message that mentions every invalid field.  A
    reading with a required numeric field that is an integer too large for
    a float is reported as [processing_error], without any field name. *)
Theorem validation_reports_one_class (data : gmap string pyval) (now : string) :
  (overflowing_names data = [] -> missing_names data <> [] ->
   let msg := "Missing required fields: " ++ join_names (missing_names data) in
   process_data data now = Failed (ErrorRecord.mk "data_validation_error" msg now "failed")
   /\ forall name, In name (missing_names data) -> mentions name msg = true)
  /\ (overflowing_names data = [] -> missing_names data = [] -> invalid_names data <> [] ->
      let msg := "Invalid sensor data (value = -999): "
                 ++ join_names (invalid_names data) in
      process_data data now = Failed (ErrorRecord.mk "data_validation_error" msg now "failed")
      /\ forall name, In name (invalid_names data) -> mentions name msg = true)
  /\ (overflowing_names data <> [] ->
      process_data data now
      = Failed (ErrorRecord.mk "processing_error"
                  "Data processing error: int too large to convert to float" now "failed")).
Proof.
  split; [|split].
  - intros Ho Hm msg. split.
    + exact (process_data_rejected _ _ _ (validate_missing data Ho Hm)).
    + intros name Hin. now apply listing_mentions.
  - intros Ho Hm Hi msg. split.
    + exact (process_data_rejected _ _ _ (validate_invalid data Ho Hm Hi)).
    + intros name Hin. now apply listing_mentions.
  - intros Ho. apply (process_data_overflow data now Ho).
Qed.

End ScreeningFacts.

Section DegradedReadings.
Context {rt : PyRuntime}.

(** C3 (amended): when the wet-bulb calculation raises on a validated
    reading, the record has [wet_bulb_temp_in = null] and
    [cooling_efficiency = null]; the efficiency is not computed but recorded
    as failed, with the entry
    ["cooling_efficiency_calculation_error: Cannot calculate efficiency: wet bulb temperature unavailable"]
    right after the wet-bulb entry; the capacity calculation still runs on
    the flow and the water temperatures ([cooling_capacity] is its rounded
    value, or null when that calculation raises itself); and
    [processing_status] is ["partial_success"]. *)
Theorem wet_bulb_failure_degrades (data : gmap string pyval) (now : string) (v : validated)
    (e : exn) :
  validate data = Ok v ->
  wet_bulb_stull (v_air_temp_in v) (v_air_humidity_in v) = Raise e ->
  exists r rest,
    process_data data now = Processed r
    /\ ProcessedReading.wet_bulb_temp_in r = None
    /\ ProcessedReading.cooling_efficiency r = None
    /\ ProcessedReading.calculation_errors r
       = ("wet_bulb_calculation_error: " ++ str_exn e)
         :: "cooling_efficiency_calculation_error: Cannot calculate efficiency: wet bulb temperature unavailable"
         :: rest
    /\ mentions "wet bulb temperature unavailable"
         "cooling_efficiency_calculation_error: Cannot calculate efficiency: wet bulb temperature unavailable"
       = true
    /\ ProcessedReading.cooling_capacity r
       = stored (calculate_cooling_capacity (v_water_flow_lpm v) (v_water_temp_in v)
                   (v_water_temp_out v))
    /\ ProcessedReading.processing_status r = "partial_success".
Proof.
  intros Hv Hwb.
  destruct (assemble_fields now v) as (Hw & Heff & Hcap & Herr & Hst).
  rewrite Hwb in Hw, Heff, Herr. cbn [value_of efficiency_attempt guarded snd] in Heff, Herr.
  exists (assemble now v).
  exists (match calculate_cooling_capacity (v_water_flow_lpm v) (v_water_temp_in v)
                  (v_water_temp_out v) with
          | Ok _ => []
          | Raise e3 => ["cooling_capacity_calculation_error: " ++ str_exn e3]
          end).
  split; [now apply process_data_validated|].
  split; [exact Hw|]. split; [exact Heff|].
  assert (Herr' : ProcessedReading.calculation_errors (assemble now v)
                  = ("wet_bulb_calculation_error: " ++ str_exn e)
                    :: "cooling_efficiency_calculation_error: Cannot calculate efficiency: wet bulb temperature unavailable"
                    :: match calculate_cooling_capacity (v_water_flow_lpm v)
                               (v_water_temp_in v) (v_water_temp_out v) with
                       | Ok _ => []
                       | Raise e3 => ["cooling_capacity_calculation_error: " ++ str_exn e3]
                       end).
  { rewrite Herr. now destruct (calculate_cooling_capacity _ _ _). }
  split; [exact Herr'|].
  split; [reflexivity|].
  split; [exact Hcap|].
  rewrite Hst, Herr'. reflexivity.
Qed.

Lemma missing_names_nil (data : gmap string pyval) :
  Forall (fun field => snd field <> PNone) (required_fields data) ->
  missing_names data = [].
Proof.
  unfold missing_names, missing_among.
  induction 1 as [|[name v] rest Hv _ IH]; [reflexivity|].
  cbn [List.filter]. now rewrite (present_is_not_missing name v Hv).
Qed.

Lemma device_id_not_invalid (v : pyval) : is_invalid ("device_id", v) = false.
Proof. unfold is_invalid. now destruct (is_missing ("device_id", v)). Qed.

Lemma invalid_names_nil (data : gmap string pyval) :
  (forall key name, In (key, name) numeric_fields -> valid_number (dict_get data key)) ->
  invalid_names data = [].
Proof.
  intros H. unfold invalid_names, invalid_among, required_fields. cbn [List.filter].
  rewrite device_id_not_invalid.
  rewrite !valid_is_not_invalid by (eapply H; cbn; eauto 10).
  reflexivity.
Qed.

(** Validation accepts a reading that has all required fields, no invalid
    one, a flow that is not below 0 and a humidity that is neither below 0
    nor above 100. *)
Lemma validate_accepts (data : gmap string pyval) (flow T_in T_out T_air humidity : float) :
  missing_names data = [] ->
  invalid_names data = [] ->
  py_float (or_else (dict_get data "flow_rate") (PInt 0)) = Ok flow ->
  py_float (or_else (dict_get data "water_temp_inlet") (PInt 0)) = Ok T_in ->
  py_float (or_else (dict_get data "water_temp_outlet") (PInt 0)) = Ok T_out ->
  py_float (or_else (dict_get data "air_temp_inlet") (PInt 0)) = Ok T_air ->
  py_float (or_else (dict_get data "air_humidity_inlet") (PInt 0)) = Ok humidity ->
  (flow <? 0) = false -> (humidity <? 0) = false -> (100 <? humidity) = false ->
  validate data
  = Ok (mk_validated (dict_get data "device_id") (dict_get data "timestamp")
          flow T_in T_out T_air humidity).
Proof.
  intros Hm Hi H1 H2 H3 H4 H5 Hflow Hh1 Hh2.
  unfold validate. rewrite (screening_result data (no_invalid_no_overflow data Hi)), Hm, Hi.
  run. cbn [nonempty].
  rewrite H1, H2, H3, H4, H5, Hflow, Hh1, Hh2. reflexivity.
Qed.

End DegradedReadings.

Section ZeroFlow.
Context {rt : PyRuntime}.

Lemma capacity_needs_flow (flow T_in T_out : float) :
  (flow <=? 0) = true ->
  calculate_cooling_capacity flow T_in T_out
  = Raise (ValueError ("Cannot calculate cooling capacity: Water flow must be positive, got "
                       ++ float_str flow ++ " L/min")).
Proof. intros H. rewrite capacity_cases. now rewrite H. Qed.

Lemma in_append {A : Type} (l : list A) (x : A) : In x (append l x).
Proof. unfold append. apply in_or_app. right. now left. Qed.

Lemma append_not_nil {A : Type} (l : list A) (x : A) : append l x <> [].
Proof. unfold append. now destruct l. Qed.

(** Zero is not the sentinel, and neither is a number of [[0,100]]. *)
Lemma zero_not_sentinel (x : float) : (x =? 0) = true -> (x =? -999) = false.
Proof.
  intros H. destruct (x =? -999) eqn:E; [|reflexivity].
  apply (eqb_finite _ (-999) _ _ _ eq_refl) in E. subst x. discriminate H.
Qed.

Lemma within_0_100_not_sentinel (x : float) : within 0 100 x -> (x =? -999) = false.
Proof.
  intros [H _]. destruct (x =? -999) eqn:E; [|reflexivity].
  apply (eqb_finite _ (-999) _ _ _ eq_refl) in E. subst x. discriminate H.
Qed.

(** C10: a reading whose flow rate is exactly 0 and whose other required
    fields are valid passes validation (the range check rejects only a
    negative flow); the capacity calculation then fails its own
    [flow <= 0] precondition, so [process_data] returns a processed reading
    with [cooling_capacity = null], a [cooling_capacity_calculation_error]
    entry in [calculation_errors] and [processing_status = "partial_success"]. *)
Theorem zero_flow_is_partial_success (data : gmap string pyval) (now : string)
    (flow humidity : float) :
  dict_get data "device_id" <> PNone ->
  py_float (dict_get data "flow_rate") = Ok flow -> (flow =? 0) = true ->
  valid_number (dict_get data "water_temp_inlet") ->
  valid_number (dict_get data "water_temp_outlet") ->
  valid_number (dict_get data "air_temp_inlet") ->
  py_float (dict_get data "air_humidity_inlet") = Ok humidity -> within 0 100 humidity ->
  exists v r,
    validate data = Ok v
    /\ (v_water_flow_lpm v =? 0) = true
    /\ process_data data now = Processed r
    /\ ProcessedReading.cooling_capacity r = None
    /\ In ("cooling_capacity_calculation_error: "
           ++ "Cannot calculate cooling capacity: Water flow must be positive, got "
           ++ float_str (v_water_flow_lpm v) ++ " L/min")
         (ProcessedReading.calculation_errors r)
    /\ ProcessedReading.processing_status r = "partial_success".
Proof.
  intros Hdev Hflow Hzero Hin Hout Hair Hhum Hrange.
  assert (Vflow : valid_number (dict_get data "flow_rate")).
  { exists flow. split; [assumption | now apply zero_not_sentinel]. }
  assert (Vhum : valid_number (dict_get data "air_humidity_inlet")).
  { exists humidity. split; [assumption | now apply within_0_100_not_sentinel]. }
  assert (Hm : missing_names data = []).
  { apply missing_names_nil. unfold required_fields.
    repeat (apply List.Forall_cons;
            [first [exact Hdev | apply valid_number_present; assumption]|]).
    apply List.Forall_nil. }
  assert (Hi : invalid_names data = []).
  { apply invalid_names_nil. unfold numeric_fields. cbn [In].
    intros key name [H|[H|[H|[H|[H|[]]]]]]; injection H as <- <-; assumption. }
  destruct (py_float_or_zero _ _ Hflow) as (flow' & Hflow' & Cflow).
  destruct Hin as (x1 & H1 & _). destruct (py_float_or_zero _ _ H1) as (T_in & HT_in & _).
  destruct Hout as (x2 & H2 & _). destruct (py_float_or_zero _ _ H2) as (T_out & HT_out & _).
  destruct Hair as (x3 & H3 & _). destruct (py_float_or_zero _ _ H3) as (T_air & HT_air & _).
  destruct (py_float_or_zero _ _ Hhum) as (hum' & Hhum' & Chum).
  assert (Zflow : (flow' =? 0) = true)
    by (destruct Cflow as [->| ->]; [assumption | reflexivity]).
  assert (Rhum : within 0 100 hum')
    by (destruct Chum as [->| ->]; [assumption | split; reflexivity]).
  destruct (eqb_zero flow' Zflow) as (Pflow & Nflow & _).
  destruct Rhum as [Rlo Rhi]. apply leb_true_ltb_false in Rlo, Rhi.
  pose proof (validate_accepts data flow' T_in T_out T_air hum' Hm Hi
                Hflow' HT_in HT_out HT_air Hhum' Pflow Rlo Rhi) as Hval.
  set (v := mk_validated (dict_get data "device_id") (dict_get data "timestamp")
              flow' T_in T_out T_air hum') in Hval.
  exists v, (assemble now v).
  split; [exact Hval|]. cbn [v v_water_flow_lpm].
  split; [exact Zflow|].
  split; [exact (process_data_validated _ _ _ Hval)|].
  destruct (assemble_fields now v) as (_ & _ & Hcap & Herr & Hst).
  cbn [v v_water_flow_lpm v_water_temp_in v_water_temp_out] in Hcap, Herr.
  rewrite (capacity_needs_flow flow' T_in T_out Nflow) in Hcap, Herr.
  cbn [guarded snd str_exn] in Herr.
  split; [exact Hcap|].
  split; [rewrite Herr; apply in_append|].
  rewrite Hst, Herr. apply status_of_partial, append_not_nil.
Qed.

End ZeroFlow.

(** * Further properties of the code *)

(** ** Ranges of the calculation library *)

Section CalculationRanges.
Context {rt : PyRuntime}.

(** X1: [calculate_cooling_tower_efficiency] returns a value exactly when
    the drop is not reversed beyond the tolerance (the test
    [T_in - T_out < -0.1] is false), so the division never raises; and every
    value it returns, in whichever branch, is neither below 0 nor above
    100. *)
Theorem efficiency_defined_iff_and_bounded (T_in T_out T_wb : float) :
  ((exists r, calculate_cooling_tower_efficiency T_in T_out T_wb = Ok r)
   <-> (T_in - T_out <? -0.1) = false)
  /\ (forall r, calculate_cooling_tower_efficiency T_in T_out T_wb = Ok r ->
                (r <? 0) = false /\ (100 <? r) = false).
Proof.
  rewrite efficiency_cases.
  destruct (T_in - T_out <? -0.1).
  { split; [split|]; [intros (r & [=]) | discriminate | intros r [=]]. }
  split; [split; [reflexivity|]|].
  - intros _. destruct (abs (T_in - T_out) <=? 0.1); [eauto|].
    destruct (T_in <=? T_wb); eauto.
  - intros r. destruct (abs (T_in - T_out) <=? 0.1); [intros [= <-]; now split|].
    destruct (T_in <=? T_wb); intros [= <-]; [now split | apply clamp_0_100_bounds].
Qed.

Lemma leb_false_ltb_false (x y : float) : (x <=? y) = false -> (x <? y) = false.
Proof.
  intros H. destruct (x <? y) eqn:E; [|reflexivity].
  apply ltb_true_leb_true in E. congruence.
Qed.

(** X2: [calculate_cooling_capacity] returns a value exactly when the flow
    is not at or below 0 and the drop is not reversed beyond the tolerance
    (the tests [flow <= 0] and [T_in - T_out < -0.1] are both false); a
    returned capacity is never negative. *)
Theorem capacity_defined_iff_and_nonnegative (flow T_in T_out : float) :
  ((exists r, calculate_cooling_capacity flow T_in T_out = Ok r)
   <-> (flow <=? 0) = false /\ (T_in - T_out <? -0.1) = false)
  /\ (forall r, calculate_cooling_capacity flow T_in T_out = Ok r -> (r <? 0) = false).
Proof.
  rewrite capacity_cases.
  destruct (flow <=? 0) eqn:Ef.
  { split; [split|]; [intros (r & [=]) | intros [? _]; discriminate | intros r [=]]. }
  destruct (T_in - T_out <? -0.1) eqn:Ed.
  { split; [split|]; [intros (r & [=]) | intros [_ ?]; discriminate | intros r [=]]. }
  split; [split; [auto|]|].
  - intros _. destruct (abs (T_in - T_out) <=? 0.1); eauto.
  - intros r. destruct (abs (T_in - T_out) <=? 0.1) eqn:Ea; intros [= <-]; [reflexivity|].
    apply mul_not_negative; [apply mul_not_negative; [|reflexivity]|].
    + apply (div_not_negative _ 60 _ _ eq_refl). now apply leb_false_ltb_false.
    + now apply (beyond_tolerance_not_negative _ 0.1 _ _ eq_refl).
Qed.

End CalculationRanges.

(** ** What validation establishes *)

Section ValidationOutcome.
Context {rt : PyRuntime}.

Lemma missing_among_nil (fields : list (string * pyval)) (field : string * pyval) :
  missing_among fields = [] -> In field fields -> is_missing field = false.
Proof.
  unfold missing_among. intros H Hin.
  destruct (is_missing field) eqn:E; [|reflexivity].
  assert (Hf : In field (List.filter is_missing fields)) by (apply List.filter_In; now split).
  destruct (List.filter is_missing fields); [destruct Hf | discriminate H].
Qed.

Lemma invalid_among_nil (fields : list (string * pyval)) (field : string * pyval) :
  invalid_among fields = [] -> In field fields -> is_invalid field = false.
Proof.
  unfold invalid_among. intros H Hin.
  destruct (is_invalid field) eqn:E; [|reflexivity].
  assert (Hf : In field (List.filter is_invalid fields)) by (apply List.filter_In; now split).
  destruct (List.filter is_invalid fields); [destruct Hf | discriminate H].
Qed.

(** With nothing missing and nothing invalid, every required numeric field
    converts to a float other than the sentinel. *)
Lemma screened_fields_valid (data : gmap string pyval) (key name : string) :
  missing_names data = [] -> invalid_names data = [] ->
  In (key, name) numeric_fields -> valid_number (dict_get data key).
Proof.
  intros Hm Hi Hin.
  pose proof (required_fields_numeric data key name Hin) as Hreq.
  pose proof (missing_among_nil _ _ Hm Hreq) as Hmiss.
  pose proof (invalid_among_nil _ _ Hi Hreq) as Hinv.
  unfold is_invalid in Hinv. rewrite Hmiss in Hinv. cbn [fst snd negb andb] in Hinv.
  rewrite (numeric_field_name key name Hin) in Hinv. cbn [negb andb] in Hinv.
  unfold valid_number. destruct (py_float (dict_get data key)) as [x|e]; [|discriminate].
  exists x. now split.
Qed.

Lemma screened_field_converts (data : gmap string pyval) (key name : string) :
  missing_names data = [] -> invalid_names data = [] ->
  In (key, name) numeric_fields ->
  exists x, py_float (or_else (dict_get data key) (PInt 0)) = Ok x.
Proof.
  intros Hm Hi Hin.
  destruct (screened_fields_valid data key name Hm Hi Hin) as (x & Hx & _).
  destruct (py_float_or_zero _ _ Hx) as (x' & Hx' & _). eauto.
Qed.

Lemma nonempty_false {A : Type} (l : list A) : nonempty l = false -> l = [].
Proof. destruct l; [reflexivity | discriminate]. Qed.

(** What an accepted reading went through. *)
Lemma validate_inv (data : gmap string pyval) (v : validated) :
  validate data = Ok v ->
  missing_names data = []
  /\ invalid_names data = []
  /\ v_device_id v = dict_get data "device_id"
  /\ v_timestamp v = dict_get data "timestamp"
  /\ py_float (or_else (dict_get data "flow_rate") (PInt 0)) = Ok (v_water_flow_lpm v)
  /\ py_float (or_else (dict_get data "water_temp_inlet") (PInt 0)) = Ok (v_water_temp_in v)
  /\ py_float (or_else (dict_get data "water_temp_outlet") (PInt 0)) = Ok (v_water_temp_out v)
  /\ py_float (or_else (dict_get data "air_temp_inlet") (PInt 0)) = Ok (v_air_temp_in v)
  /\ py_float (or_else (dict_get data "air_humidity_inlet") (PInt 0))
     = Ok (v_air_humidity_in v)
  /\ (v_water_flow_lpm v <? 0) = false
  /\ (v_air_humidity_in v <? 0) = false
  /\ (100 <? v_air_humidity_in v) = false.
Proof.
  destruct (overflowing_names data) as [|o os] eqn:Ho.
  2: { intros Hv.
       assert (Hne : overflowing_names data <> []) by (rewrite Ho; discriminate).
       destruct (process_data_overflow data "" Hne) as [Hr _]. congruence. }
  unfold validate. rewrite (screening_result data Ho). run.
  destruct (nonempty (missing_names data)) eqn:Em; [discriminate|].
  destruct (nonempty (invalid_names data)) eqn:Ei; [discriminate|].
  destruct (py_float (or_else (dict_get data "flow_rate") (PInt 0))) as [flow|]; [|discriminate].
  destruct (py_float (or_else (dict_get data "water_temp_inlet") (PInt 0))) as [T_in|];
    [|discriminate].
  destruct (py_float (or_else (dict_get data "water_temp_outlet") (PInt 0))) as [T_out|];
    [|discriminate].
  destruct (py_float (or_else (dict_get data "air_temp_inlet") (PInt 0))) as [T_air|];
    [|discriminate].
  destruct (py_float (or_else (dict_get data "air_humidity_inlet") (PInt 0))) as [hum|];
    [|discriminate].
  destruct (flow <? 0) eqn:E1; [discriminate|].
  destruct (hum <? 0) eqn:E2; [discriminate|].
  destruct (100 <? hum) eqn:E3; [discriminate|].
  cbn [orb]. intros [= <-]. cbn.
  repeat split; auto using nonempty_false.
Qed.

(** X4: validation accepts a reading exactly when no required field is
    missing, none is invalid, the flow is not below 0 and the humidity is
    neither below 0 nor above 100 (a NaN passes these range tests); the
    accepted record carries [device_id] and [timestamp] of the reading
    untouched. *)
Theorem validate_accepts_iff (data : gmap string pyval) :
  ((exists v, validate data = Ok v)
   <-> missing_names data = []
       /\ invalid_names data = []
       /\ exists flow humidity,
            py_float (or_else (dict_get data "flow_rate") (PInt 0)) = Ok flow
            /\ py_float (or_else (dict_get data "air_humidity_inlet") (PInt 0)) = Ok humidity
            /\ (flow <? 0) = false /\ (humidity <? 0) = false /\ (100 <? humidity) = false)
  /\ (forall v, validate data = Ok v ->
        v_device_id v = dict_get data "device_id"
        /\ v_device_id v <> PNone
        /\ v_timestamp v = dict_get data "timestamp").
Proof.
  split; [split|].
  - intros (v & Hv).
    destruct (validate_inv data v Hv)
      as (Hm & Hi & _ & _ & Hf & _ & _ & _ & Hh & Hf0 & Hh0 & Hh1).
    eauto 12.
  - intros (Hm & Hi & flow & hum & Hf & Hh & Hf0 & Hh0 & Hh1).
    destruct (screened_field_converts data "water_temp_inlet" "water_temp_in" Hm Hi)
      as (T_in & HT_in); [cbn; auto 10|].
    destruct (screened_field_converts data "water_temp_outlet" "water_temp_out" Hm Hi)
      as (T_out & HT_out); [cbn; auto 10|].
    destruct (screened_field_converts data "air_temp_inlet" "air_temp_in" Hm Hi)
      as (T_air & HT_air); [cbn; auto 10|].
    eexists. exact (validate_accepts data flow T_in T_out T_air hum Hm Hi
                      Hf HT_in HT_out HT_air Hh Hf0 Hh0 Hh1).
  - intros v Hv.
    destruct (validate_inv data v Hv) as (Hm & _ & Hd & Ht & _).
    split; [exact Hd|]. split; [|exact Ht].
    rewrite Hd. intros Hnone.
    assert (Hin : In ("device_id", dict_get data "device_id") (required_fields data))
      by (left; reflexivity).
    pose proof (missing_among_nil _ _ Hm Hin) as Hmiss.
    unfold is_missing in Hmiss. cbn [snd] in Hmiss. rewrite Hnone in Hmiss. discriminate.
Qed.

(** X5: a reading whose required fields are all present and valid is
    rejected by the range checks, as a [data_validation_error]: for a
    negative flow with the message ["Invalid water flow rate: <flow>"]
    (whatever the humidity), and for a non-negative flow and a humidity
    outside [[0,100]] with the message ["Invalid humidity: <humidity>%"]. *)
Theorem range_checks_reject (data : gmap string pyval) (now : string) (flow humidity : float) :
  missing_names data = [] -> invalid_names data = [] ->
  py_float (or_else (dict_get data "flow_rate") (PInt 0)) = Ok flow ->
  py_float (or_else (dict_get data "air_humidity_inlet") (PInt 0)) = Ok humidity ->
  ((flow <? 0) = true ->
   process_data data now
   = Failed (ErrorRecord.mk "data_validation_error"
               ("Invalid water flow rate: " ++ float_str flow) now "failed"))
  /\ ((0 <=? flow) = true -> outside 0 100 humidity ->
      process_data data now
      = Failed (ErrorRecord.mk "data_validation_error"
                  ("Invalid humidity: " ++ float_str humidity ++ "%") now "failed")).
Proof.
  intros Hm Hi Hf Hh.
  destruct (screened_field_converts data "water_temp_inlet" "water_temp_in" Hm Hi)
    as (T_in & HT_in); [cbn; auto 10|].
  destruct (screened_field_converts data "water_temp_outlet" "water_temp_out" Hm Hi)
    as (T_out & HT_out); [cbn; auto 10|].
  destruct (screened_field_converts data "air_temp_inlet" "air_temp_in" Hm Hi)
    as (T_air & HT_air); [cbn; auto 10|].
  pose proof (screening_result data (no_invalid_no_overflow data Hi)) as Hs.
  split.
  - intros Hneg. apply process_data_rejected.
    unfold validate. rewrite Hs, Hm, Hi. run. cbn [nonempty].
    rewrite Hf, HT_in, HT_out, HT_air, Hh. now rewrite Hneg.
  - intros Hpos Hout. apply process_data_rejected.
    unfold validate. rewrite Hs, Hm, Hi. run. cbn [nonempty].
    rewrite Hf, HT_in, HT_out, HT_air, Hh.
    rewrite (leb_true_ltb_false _ _ Hpos). now rewrite (outside_guard _ _ _ Hout).
Qed.

End ValidationOutcome.

(** ** How the calculations compose after validation *)

Section Composition.
Context {rt : PyRuntime}.

(** After validation the humidity guard of [wet_bulb_stull] never fires:
    the calculation raises exactly when the air temperature is outside
    [[-50,60]]. *)
Lemma wet_bulb_outcome (T RH : float) :
  (RH <? 0) = false -> (100 <? RH) = false ->
  (outside (-50) 60 T /\ exists msg, wet_bulb_stull T RH = Raise (ValueError msg))
  \/ ((T <? -50) = false /\ (60 <? T) = false /\ exists w, wet_bulb_stull T RH = Ok w).
Proof.
  intros H0 H100. rewrite wet_bulb_cases, H0, H100. cbn [orb].
  destruct (T <? -50) eqn:E1; [left; split; [now left | eauto]|].
  destruct (60 <? T) eqn:E2; [left; split; [now right | eauto]|].
  right. cbn [orb]. eauto.
Qed.

Lemma stored_none (r : result float) : stored r = None <-> value_of r = None.
Proof. unfold stored. destruct (value_of r); cbn; split; congruence. Qed.

Lemma outside_false (lo hi x : float) :
  (x <? lo) = false -> (hi <? x) = false -> ~ outside lo hi x.
Proof. intros H1 H2 [H|H]; congruence. Qed.

(** X6: on a validated reading the wet-bulb calculation can fail for one
    reason only, an air temperature outside [[-50,60]]: the record has
    [wet_bulb_temp_in = null] exactly in that case (the humidity guard of
    [wet_bulb_stull] never fires after validation). *)
Theorem wet_bulb_null_iff_air_temp_out_of_range (data : gmap string pyval) (now : string)
    (v : validated) :
  validate data = Ok v ->
  exists r,
    process_data data now = Processed r
    /\ (ProcessedReading.wet_bulb_temp_in r = None
        <-> outside (-50) 60 (v_air_temp_in v)).
Proof.
  intros Hv. exists (assemble now v). split; [now apply process_data_validated|].
  destruct (validate_inv data v Hv) as (_ & _ & _ & _ & _ & _ & _ & _ & _ & _ & Hh0 & Hh1).
  destruct (assemble_fields now v) as (Hw & _). rewrite Hw, stored_none.
  destruct (wet_bulb_outcome (v_air_temp_in v) (v_air_humidity_in v) Hh0 Hh1)
    as [(Ht & msg & E)|(Ht1 & Ht2 & w & E)]; rewrite E; cbn [value_of].
  - split; auto.
  - split; [discriminate | intros H; now destruct (outside_false _ _ _ Ht1 Ht2)].
Qed.

(** X7: a validated reading is processed with status ["success"] exactly
    when the air temperature is not outside [[-50,60]], the flow is not at
    or below 0 and the water temperature drop is not reversed beyond the
    tolerance (each of the tests [T < -50], [T > 60], [flow <= 0] and
    [T_in - T_out < -0.1] is false); in every other case the status is
    ["partial_success"]. *)
Theorem success_iff_inputs_in_domain (data : gmap string pyval) (now : string)
    (v : validated) :
  validate data = Ok v ->
  exists r,
    process_data data now = Processed r
    /\ (ProcessedReading.processing_status r = "success"
        <-> (v_air_temp_in v <? -50) = false /\ (60 <? v_air_temp_in v) = false
            /\ (v_water_flow_lpm v <=? 0) = false
            /\ (v_water_temp_in v - v_water_temp_out v <? -0.1) = false)
    /\ (ProcessedReading.processing_status r = "success"
        \/ ProcessedReading.processing_status r = "partial_success").
Proof.
  intros Hv. exists (assemble now v). split; [now apply process_data_validated|].
  destruct (validate_inv data v Hv) as (_ & _ & _ & _ & _ & _ & _ & _ & _ & _ & Hh0 & Hh1).
  destruct (assemble_fields now v) as (_ & _ & _ & Herr & Hst).
  rewrite Hst, Herr. clear Hst Herr.
  rewrite wet_bulb_cases, Hh0, Hh1. cbn [orb].
  destruct (v_air_temp_in v <? -50) eqn:E1; cbn [orb value_of efficiency_attempt guarded snd].
  { destruct (calculate_cooling_capacity _ _ _);
      cbn [guarded snd append app status_of nonempty negb];
      (split; [split; [discriminate | intros (? & _); discriminate] | now right]). }
  destruct (60 <? v_air_temp_in v) eqn:E2; cbn [orb value_of efficiency_attempt guarded snd].
  { destruct (calculate_cooling_capacity _ _ _);
      cbn [guarded snd append app status_of nonempty negb];
      (split; [split; [discriminate | intros (_ & ? & _); discriminate] | now right]). }
  rewrite efficiency_cases, capacity_cases.
  destruct (v_water_flow_lpm v <=? 0) eqn:Ef;
    destruct (v_water_temp_in v - v_water_temp_out v <? -0.1) eqn:Ed;
    try destruct (abs (v_water_temp_in v - v_water_temp_out v) <=? 0.1);
    try destruct (v_water_temp_in v <=? _);
    cbn [guarded snd append app status_of nonempty negb];
    (split; [split; [intros H; try discriminate H; auto
                    | intros (_ & _ & ? & ?); try discriminate; reflexivity]
            | auto]).
Qed.

(** X8: in every processed reading each null derived field is matched by
    one entry of [calculation_errors] and conversely (so there are at most
    three entries), a null wet-bulb temperature always comes with a null
    efficiency, and the status is ["success"] exactly when none of the three
    derived fields is null. *)
Theorem errors_account_for_null_fields (data : gmap string pyval) (now : string)
    (r : ProcessedReading.t) :
  process_data data now = Processed r ->
  length (ProcessedReading.calculation_errors r) = null_count r
  /\ (ProcessedReading.wet_bulb_temp_in r = None ->
      ProcessedReading.cooling_efficiency r = None)
  /\ (ProcessedReading.processing_status r = "success"
      <-> ProcessedReading.wet_bulb_temp_in r <> None
          /\ ProcessedReading.cooling_efficiency r <> None
          /\ ProcessedReading.cooling_capacity r <> None).
Proof.
  intros H. apply process_data_processed_inv in H as (v & _ & ->).
  destruct (assemble_fields now v) as (Hw & He & Hc & Herr & Hst).
  unfold null_count. rewrite Hst, Herr, Hw, He, Hc. clear Hst Herr Hw He Hc.
  unfold stored.
  destruct (wet_bulb_stull _ _) as [w|e1]; cbn [value_of guarded snd];
  destruct (efficiency_attempt _ _ _) as [e|e2] eqn:E2; cbn [value_of guarded snd];
  destruct (calculate_cooling_capacity _ _ _) as [c|e3]; cbn;
  try discriminate E2;
  (split; [reflexivity|]); (split; [try reflexivity; try discriminate|]);
  (split; [try discriminate; intros _; repeat split; discriminate
          | intros (H1 & H2 & H3); try reflexivity; congruence]).
Qed.

End Composition.

(** ** Consequences of the quality table *)

(** X9: the quality label does not depend on the direction of the
    temperature drop: swapping inlet and outlet temperature leaves it
    unchanged (a reversed drop, on which the calculations fail, is rated
    like its mirror image). *)
Theorem quality_ignores_drop_direction (T_in T_out flow humidity : float) :
  assess_data_quality T_in T_out flow humidity
  = assess_data_quality T_out T_in flow humidity.
Proof.
  unfold assess_data_quality. now rewrite (abs_sub_comm T_in T_out).
Qed.


(** ** The dictionaries handed to the callers *)

Lemma processed_dict_lookups (r : ProcessedReading.t) :
  processed_dict r !! "error" = None
  /\ processed_dict r !! "device_id" = Some (ProcessedReading.device_id r)
  /\ processed_dict r !! "timestamp" = Some (ProcessedReading.timestamp r)
  /\ processed_dict r !! "processed_at" = Some (PStr (ProcessedReading.processed_at r))
  /\ processed_dict r !! "water_flow_lpm" = Some (PFloat (ProcessedReading.water_flow_lpm r))
  /\ processed_dict r !! "water_temp_in" = Some (PFloat (ProcessedReading.water_temp_in r))
  /\ processed_dict r !! "water_temp_out" = Some (PFloat (ProcessedReading.water_temp_out r))
  /\ processed_dict r !! "air_temp_in" = Some (PFloat (ProcessedReading.air_temp_in r))
  /\ processed_dict r !! "air_humidity_in"
     = Some (PFloat (ProcessedReading.air_humidity_in r))
  /\ processed_dict r !! "wet_bulb_temp_in"
     = Some (optional_float (ProcessedReading.wet_bulb_temp_in r))
  /\ processed_dict r !! "cooling_efficiency"
     = Some (optional_float (ProcessedReading.cooling_efficiency r))
  /\ processed_dict r !! "cooling_capacity"
     = Some (optional_float (ProcessedReading.cooling_capacity r))
  /\ processed_dict r !! "calculation_errors"
     = Some (PObj (nonempty (ProcessedReading.calculation_errors r)))
  /\ processed_dict r !! "data_quality" = Some (PStr (ProcessedReading.data_quality r))
  /\ processed_dict r !! "processing_status"
     = Some (PStr (ProcessedReading.processing_status r)).
Proof. repeat split; vm_compute; reflexivity. Qed.

Lemma error_dict_has_error (e : ErrorRecord.t) : dict_has (error_dict e) "error" = true.
Proof. vm_compute. reflexivity. Qed.

Lemma processed_dict_nonempty (r : ProcessedReading.t) :
  nonempty (map_to_list (processed_dict r)) = true.
Proof.
  destruct (map_to_list (processed_dict r)) as [|kv l] eqn:E; [|reflexivity].
  apply map_to_list_empty_iff in E.
  destruct (processed_dict_lookups r) as (_ & H & _). rewrite E in H.
  now rewrite lookup_empty in H.
Qed.

(** ** The fields of a point *)

(** The loop over the entries of a dictionary builds the fields of the
    point, one per numeric entry, unless the conversion of an entry raises. *)
Lemma fields_of_dict (data : gmap string pyval) :
  map_Forall (fun key value => is_field key value = true ->
                               exists x, number_value value = Ok x) data ->
  exists fields,
    map_fold add_field (Ok ∅) data = Ok fields
    /\ forall key, fields !! key = data !! key ≫= field_of key.
Proof.
  apply (map_fold_weak_ind
           (fun r m =>
              map_Forall (fun key value => is_field key value = true ->
                                           exists x, number_value value = Ok x) m ->
              exists fields, r = Ok fields
                             /\ forall key, fields !! key = m !! key ≫= field_of key)).
  - intros _. exists ∅. split; [reflexivity|]. intros key. now rewrite !lookup_empty.
  - intros i x m r Hi IH Hall.
    apply map_Forall_insert in Hall as [Hx Hall]; [|exact Hi].
    destruct (IH Hall) as (fields & -> & Hfields).
    unfold add_field. run. unfold field_of in *.
    destruct (is_field i x) eqn:Ef.
    + destruct (Hx eq_refl) as (y & Hy). rewrite Hy. eexists. split; [reflexivity|].
      intros key. destruct (decide (i = key)) as [->|Hne].
      * rewrite !lookup_insert_eq. cbn. now rewrite Ef, Hy.
      * rewrite !lookup_insert_ne by exact Hne. apply Hfields.
    + exists fields. split; [reflexivity|].
      intros key. destruct (decide (i = key)) as [->|Hne].
      * rewrite lookup_insert_eq. cbn. rewrite Ef. rewrite Hfields, Hi. reflexivity.
      * rewrite lookup_insert_ne by exact Hne. apply Hfields.
Qed.

(** No entry of the dictionary of a processed reading makes the conversion
    raise. *)
Lemma processed_dict_converts (r : ProcessedReading.t) :
  map_Forall (fun key value => is_field key value = true ->
                               exists x, number_value value = Ok x) (processed_dict r).
Proof.
  intros key value Hlook. unfold processed_dict in Hlook.
  apply elem_of_list_to_map_2 in Hlook. rewrite list_elem_of_In in Hlook.
  cbn [In] in Hlook.
  repeat (destruct Hlook as [Hlook|Hlook]; [injection Hlook as <- <-|]);
    [..|destruct Hlook]; unfold is_field; cbn [existsb not_a_field];
    try (vm_compute; discriminate);
    try (rewrite andb_false_r; discriminate);
    try (cbn [optional_float]; intros _; eauto; fail);
    try (intros _; cbn [number_value]; eauto; fail).
  all: match goal with
       | |- context [optional_float ?x] => destruct x; cbn; [eauto | discriminate]
       end.
Qed.

(** ** The message callback *)

Section CallbackFacts.
Context {rt : PyRuntime}.
Variable iso_valid : string -> bool.
Variable accepts : Point.t -> bool.

(** The point of a processed reading is always built. *)
Lemma build_point_processed (r : ProcessedReading.t) :
  exists fields,
    build_point iso_valid (processed_dict r)
    = Ok (Point.mk "cooling_tower"
            (dict_get_default (processed_dict r) "device_id" (PStr "unknown_device"))
            (point_time_of iso_valid (dict_get (processed_dict r) "timestamp")) fields)
    /\ forall key, fields !! key = processed_dict r !! key ≫= field_of key.
Proof.
  destruct (fields_of_dict (processed_dict r) (processed_dict_converts r)) as (fields & Hf & Hl).
  exists fields. split; [|exact Hl]. unfold build_point. now rewrite Hf.
Qed.

Lemma process_data_cases (data : gmap string pyval) (now : string) :
  (exists v, validate data = Ok v /\ process_data data now = Processed (assemble now v))
  \/ (exists e ve, validate data = Raise e /\ process_data data now = Failed ve).
Proof.
  unfold process_data. destruct (validate data) as [v|e]; cbn.
  - left. eauto.
  - right. destruct e; eauto.
Qed.

(** A record with status ["success"] has an efficiency. *)
Lemma success_has_efficiency (now : string) (v : validated) :
  ProcessedReading.processing_status (assemble now v) = "success" ->
  exists e, ProcessedReading.cooling_efficiency (assemble now v) = Some e.
Proof.
  destruct (assemble_fields now v) as (_ & He & _ & Herr & Hst).
  rewrite Hst, Herr, He. unfold stored.
  destruct (wet_bulb_stull _ _); cbn [value_of guarded snd];
  destruct (efficiency_attempt _ _ _); cbn [value_of guarded snd];
  destruct (calculate_cooling_capacity _ _ _); cbn; intros H;
  try discriminate H; eauto.
Qed.

Lemma write_keeps_stats (h : option bool) (d : gmap string pyval) (w : world) :
  stats (match h with
         | Some connected =>
             if nonempty (map_to_list d)
             then mk_world (stats w) (snd (write_data iso_valid accepts connected d (db w)))
             else w
         | None => w
         end) = stats w.
Proof. destruct h; [destruct (nonempty _)|]; reflexivity. Qed.

(** After a processed reading the callback counts one processed message
    and nothing else: the log line of a success finds an efficiency to
    format. *)
Lemma on_processed_stats (h : option bool) (now : string) (v : validated) (w : world) :
  stats (on_processed iso_valid accepts h (processed_dict (assemble now v)) w)
  = stats (count_processed w).
Proof.
  unfold on_processed, dict_get_default. cbv zeta.
  set (w1 := match h with Some _ => _ | None => _ end).
  assert (Hw1 : stats w1 = stats w) by apply write_keeps_stats.
  destruct (processed_dict_lookups (assemble now v))
    as (_ & _ & _ & _ & _ & _ & _ & _ & _ & _ & Heff & _ & _ & _ & Hst).
  rewrite Hst, Heff. cbv beta iota.
  destruct (String.eqb (ProcessedReading.processing_status (assemble now v)) "success")
    eqn:Es; [|unfold count_processed; cbn; now rewrite Hw1].
  apply String.eqb_eq in Es. destruct (success_has_efficiency now v Es) as (e & He).
  rewrite He. cbn [optional_float formats_as_float number_value].
  destruct (_ =? 0)%Z; unfold count_processed; cbn; now rewrite Hw1.
Qed.

Lemma on_message_stats (h : option bool) (now : string) (msg : payload) (w : world) :
  stats (on_message iso_valid accepts h now msg w)
  = if accepted msg
    then Stats.mk (Stats.messages_received (stats w) + 1)
           (Stats.messages_processed (stats w) + 1) (Stats.messages_failed (stats w))
    else Stats.mk (Stats.messages_received (stats w) + 1)
           (Stats.messages_processed (stats w)) (Stats.messages_failed (stats w) + 1).
Proof.
  unfold on_message, accepted. destruct msg as [| |data]; try reflexivity.
  destruct (process_data_cases data now) as [(v & Hv & Hp)|(e & ve & Hv & Hp)];
    rewrite Hv, Hp; cbn [output_dict].
  - destruct (processed_dict_lookups (assemble now v)) as (Herr & _).
    unfold dict_has. rewrite Herr. rewrite on_processed_stats. reflexivity.
  - rewrite error_dict_has_error. reflexivity.
Qed.

(** X12: [on_message] counts every message exactly once: it always adds one
    to [messages_received], and adds one to [messages_processed] when the
    message decodes to an object that passes validation, one to
    [messages_failed] otherwise; neither the state of the database handler
    nor a failed write changes the counts. *)
Theorem on_message_counts_once (h : option bool) (now : string) (msg : payload) (w : world) :
  let s := stats w in
  let s' := stats (on_message iso_valid accepts h now msg w) in
  Stats.messages_received s' = (Stats.messages_received s + 1)%Z
  /\ Stats.messages_processed s'
     = (Stats.messages_processed s + if accepted msg then 1 else 0)%Z
  /\ Stats.messages_failed s'
     = (Stats.messages_failed s + if accepted msg then 0 else 1)%Z.
Proof.
  cbv zeta. rewrite on_message_stats.
  destruct (accepted msg); cbn; repeat split; lia.
Qed.

Lemma on_messages_stats (h : option bool) (msgs : list (string * payload)) (w : world) :
  let s := stats w in
  let s' := stats (on_messages iso_valid accepts h msgs w) in
  let n_ok := Z.of_nat (length (List.filter (fun m => accepted (snd m)) msgs)) in
  let n_bad := Z.of_nat (length (List.filter (fun m => negb (accepted (snd m))) msgs)) in
  Stats.messages_received s' = (Stats.messages_received s + Z.of_nat (length msgs))%Z
  /\ Stats.messages_processed s' = (Stats.messages_processed s + n_ok)%Z
  /\ Stats.messages_failed s' = (Stats.messages_failed s + n_bad)%Z.
Proof.
  cbv zeta. revert w.
  induction msgs as [|[now msg] rest IH]; intros w.
  - cbn. repeat split; lia.
  - cbn [on_messages List.filter snd length].
    destruct (IH (on_message iso_valid accepts h now msg w)) as (Hr & Hp & Hf).
    rewrite Hr, Hp, Hf, on_message_stats.
    destruct (accepted msg); cbn [negb length Stats.messages_received
      Stats.messages_processed Stats.messages_failed]; repeat split; lia.
Qed.

(** X13: after any stream of messages handled from the initial counters,
    [messages_received] is the number of messages, [messages_processed] the
    number of accepted ones, and [messages_received = messages_processed +
    messages_failed]. *)
Theorem counters_after_stream (h : option bool) (msgs : list (string * payload)) :
  let s := stats (on_messages iso_valid accepts h msgs initial_world) in
  Stats.messages_received s = Z.of_nat (length msgs)
  /\ Stats.messages_processed s
     = Z.of_nat (length (List.filter (fun m => accepted (snd m)) msgs))
  /\ Stats.messages_received s
     = (Stats.messages_processed s + Stats.messages_failed s)%Z.
Proof.
  cbv zeta. destruct (on_messages_stats h msgs initial_world) as (Hr & Hp & Hf).
  rewrite Hr, Hp, Hf. cbn [initial_world stats Stats.messages_received
    Stats.messages_processed Stats.messages_failed].
  repeat split; try lia.
  assert (Hsplit : forall l : list (string * payload),
             length l = (length (List.filter (fun m => accepted (snd m)) l)
                         + length (List.filter (fun m => negb (accepted (snd m))) l))%nat).
  { induction l as [|m l IHl]; [reflexivity|]. cbn [List.filter].
    destruct (accepted (snd m)); cbn [negb length]; lia. }
  rewrite (Hsplit msgs) at 1. lia.
Qed.

(** X14: the success rate that [log_system_stats] reports after any stream
    of messages lies between 0 and 100: it is 0 when nothing was received,
    and the share of processed messages otherwise. *)
Theorem success_rate_is_percentage (h : option bool) (msgs : list (string * payload)) :
  let s := stats (on_messages iso_valid accepts h msgs initial_world) in
  (0 <= success_rate s <= 100)%Q
  /\ (msgs = [] -> success_rate s = 0%Q).
Proof.
  cbv zeta. split; [|intros ->; reflexivity].
  destruct (on_messages_stats h msgs initial_world) as (Hr & Hp & _).
  cbn [initial_world stats Stats.messages_received Stats.messages_processed] in Hr, Hp.
  unfold success_rate. rewrite Hr, Hp.
  set (n := Z.of_nat (length msgs)).
  set (k := Z.of_nat (length (List.filter (fun m => accepted (snd m)) msgs))).
  assert (Hk : (0 <= k <= n)%Z).
  { subst k n. split; [lia|]. apply inj_le. apply List.filter_length_le. }
  rewrite !Z.add_0_l.
  destruct (0 <? n)%Z eqn:En; [|split; lra].
  apply Z.ltb_lt in En.
  assert (Hn : (inject_Z 0 < inject_Z n)%Q) by (rewrite <- Zlt_Qlt; exact En).
  assert (Hk0 : (inject_Z 0 <= inject_Z k)%Q) by (rewrite <- Zle_Qle; lia).
  assert (Hkn : (inject_Z k <= inject_Z n)%Q) by (rewrite <- Zle_Qle; lia).
  change (inject_Z 0) with 0%Q in Hn, Hk0.
  assert (Hq0 : (0 <= inject_Z k / inject_Z n)%Q) by (apply Qle_shift_div_l; lra).
  assert (Hq1 : (inject_Z k / inject_Z n <= 1)%Q) by (apply Qle_shift_div_r; lra).
  split; lra.
Qed.

Lemma point_of_accepted (now : string) (msg : payload) :
  accepted msg = true -> exists p, point_of iso_valid now msg = [p].
Proof.
  unfold accepted, point_of. destruct msg as [| |data]; try discriminate.
  destruct (validate data) as [v|] eqn:Hv; [|discriminate]. intros _.
  rewrite (process_data_validated data now v Hv).
  destruct (build_point_processed (assemble now v)) as (fields & -> & _). eauto.
Qed.

Lemma point_of_rejected (now : string) (msg : payload) :
  accepted msg = false -> point_of iso_valid now msg = [].
Proof.
  unfold accepted, point_of. destruct msg as [| |data]; try reflexivity.
  destruct (process_data_cases data now) as [(v & Hv & Hp)|(e & ve & Hv & Hp)];
    rewrite Hv, Hp; [discriminate | reflexivity].
Qed.

(** X15: with a connected handler and a database that accepts every write,
    the database holds, in arrival order, one point for each accepted
    message, also for the readings processed with calculation errors, and
    none for a rejected message; without a connected handler nothing is
    stored. *)
Theorem database_after_stream (h : option bool) (msgs : list (string * payload)) :
  (h = Some true -> (forall p, accepts p = true) ->
   db (on_messages iso_valid accepts h msgs initial_world)
   = flat_map (fun m => point_of iso_valid (fst m) (snd m)) msgs)
  /\ (h = None \/ h = Some false ->
      db (on_messages iso_valid accepts h msgs initial_world) = [])
  /\ (forall now msg,
        length (point_of iso_valid now msg) = if accepted msg then 1%nat else 0%nat).
Proof.
  assert (Hstep : forall now msg w,
            db (on_message iso_valid accepts h now msg w)
            = match h with
              | Some true =>
                  match point_of iso_valid now msg with
                  | [p] => if accepts p then append (db w) p else db w
                  | _ => db w
                  end
              | _ => db w
              end).
  { intros now msg w. unfold on_message, point_of.
    destruct msg as [| |data]; [destruct h as [[]|]; reflexivity ..|].
    destruct (process_data data now) as [r|e]; cbn [output_dict].
    - destruct (processed_dict_lookups r) as (Herr & _ & _ & _ & _ & _ & _ & _ & _ & _ & _ & _ & _ & _ & Hst).
      unfold dict_has. rewrite Herr. unfold on_processed, dict_get_default.
      rewrite Hst, processed_dict_nonempty. cbv beta iota.
      assert (Hdb : forall w1 : world,
                db (if String.eqb (ProcessedReading.processing_status r) "success"
                    then if (Stats.messages_processed (stats (count_processed w1)) mod 60 =? 0)%Z
                         then if formats_as_float
                                   match processed_dict r !! "cooling_efficiency" with
                                   | Some x => x
                                   | None => PInt 0
                                   end
                              then count_processed w1 else count_failed (count_processed w1)
                         else count_processed w1
                    else count_processed w1) = db w1).
      { intros w1. repeat match goal with |- context [if ?b then _ else _] => destruct b end;
          reflexivity. }
      rewrite Hdb. destruct (build_point_processed r) as (fields & Hp & _).
      destruct h as [[]|]; try reflexivity.
      unfold write_data. rewrite Hp. cbn [negb db snd].
      now destruct (accepts _).
    - rewrite error_dict_has_error. destruct h as [[]|]; reflexivity. }
  split; [|split].
  - intros -> Hacc.
    assert (Hgen : forall w, db (on_messages iso_valid accepts (Some true) msgs w)
                             = (db w ++ flat_map (fun m => point_of iso_valid (fst m) (snd m)) msgs)%list).
    { induction msgs as [|[now msg] rest IH]; intros w; cbn [on_messages flat_map fst snd].
      - now rewrite app_nil_r.
      - rewrite IH, Hstep.
        destruct (accepted msg) eqn:Ea.
        + destruct (point_of_accepted now msg Ea) as (p & ->).
          rewrite Hacc. unfold append. now rewrite <- app_assoc.
        + now rewrite (point_of_rejected now msg Ea). }
    apply Hgen.
  - intros Hh.
    assert (Hgen : forall w, db (on_messages iso_valid accepts h msgs w) = db w).
    { induction msgs as [|[now msg] rest IH]; intros w; cbn [on_messages]; [reflexivity|].
      rewrite IH, Hstep. destruct Hh as [-> | ->]; reflexivity. }
    apply Hgen.
  - intros now msg. destruct (accepted msg) eqn:Ea.
    + destruct (point_of_accepted now msg Ea) as (p & ->). reflexivity.
    + now rewrite (point_of_rejected now msg Ea).
Qed.

End CallbackFacts.

(** ** The point written for a processed reading *)

Section SinkFacts.
Context {rt : PyRuntime}.
Variable iso_valid : string -> bool.
Variable accepts : Point.t -> bool.

Lemma processed_dict_other_key (r : ProcessedReading.t) (key : string) :
  ~ In key [ "device_id"; "timestamp"; "processed_at"; "water_flow_lpm"; "water_temp_in";
             "water_temp_out"; "air_temp_in"; "air_humidity_in"; "wet_bulb_temp_in";
             "cooling_efficiency"; "cooling_capacity"; "calculation_errors";
             "data_quality"; "processing_status" ] ->
  processed_dict r !! key = None.
Proof.
  intros H. unfold processed_dict. apply not_elem_of_list_to_map_1.
  rewrite list_elem_of_In. exact H.
Qed.

Lemma field_of_optional (key : string) (x : option float) :
  existsb (String.eqb key) not_a_field = false ->
  field_of key (optional_float x) = x.
Proof. intros H. unfold field_of, is_field. rewrite H. now destruct x. Qed.

Lemma processed_dict_fields (r : ProcessedReading.t) (key : string) :
  processed_dict r !! key ≫= field_of key = expected_field r key.
Proof.
  destruct (processed_dict_lookups r)
    as (_ & Hd & Ht & Hp & H1 & H2 & H3 & H4 & H5 & H6 & H7 & H8 & H9 & H10 & H11).
  unfold expected_field.
  repeat match goal with
  | |- context [String.eqb key ?k] =>
      let E := fresh "E" in
      destruct (String.eqb key k) eqn:E;
      [ apply String.eqb_eq in E; subst key;
        first [ rewrite H1 | rewrite H2 | rewrite H3 | rewrite H4 | rewrite H5
              | rewrite H6 | rewrite H7 | rewrite H8 ];
        cbn [mbind option_bind]; first [reflexivity | now apply field_of_optional]
      | apply String.eqb_neq in E ]
  end.
  destruct (processed_dict r !! key) as [v|] eqn:Ev; [|reflexivity].
  cbn [mbind option_bind].
  destruct (String.eqb key "device_id") eqn:K1;
    [apply String.eqb_eq in K1; subst key; unfold field_of, is_field; cbn;
     now rewrite andb_false_r|apply String.eqb_neq in K1].
  destruct (String.eqb key "timestamp") eqn:K2;
    [apply String.eqb_eq in K2; subst key; unfold field_of, is_field; cbn;
     now rewrite andb_false_r|apply String.eqb_neq in K2].
  destruct (String.eqb key "processed_at") eqn:K3;
    [apply String.eqb_eq in K3; subst key; unfold field_of, is_field; cbn;
     now rewrite andb_false_r|apply String.eqb_neq in K3].
  destruct (String.eqb key "calculation_errors") eqn:K4;
    [apply String.eqb_eq in K4; subst key; rewrite H9 in Ev; injection Ev as <-;
     reflexivity|apply String.eqb_neq in K4].
  destruct (String.eqb key "data_quality") eqn:K5;
    [apply String.eqb_eq in K5; subst key; rewrite H10 in Ev; injection Ev as <-;
     reflexivity|apply String.eqb_neq in K5].
  destruct (String.eqb key "processing_status") eqn:K6;
    [apply String.eqb_eq in K6; subst key; rewrite H11 in Ev; injection Ev as <-;
     reflexivity|apply String.eqb_neq in K6].
  rewrite processed_dict_other_key in Ev; [discriminate|].
  cbn [In]. intuition congruence.
Qed.

(** X16: the point of a processed reading is always built, and it has as
    fields exactly the five rounded inputs and those derived metrics that
    are not null: a null metric is left out (the write does not fail on
    it), and neither the identifiers, the timestamps, the error list, the
    quality label nor the status is written as a field. *)
Theorem point_fields_of_processed (r : ProcessedReading.t) :
  exists p,
    build_point iso_valid (processed_dict r) = Ok p
    /\ forall key, Point.fields p !! key = expected_field r key.
Proof.
  destruct (build_point_processed iso_valid r) as (fields & Hp & Hf).
  eexists. split; [exact Hp|]. intros key. cbn [Point.fields].
  rewrite Hf. apply processed_dict_fields.
Qed.

(** X17: the point of a validated reading is tagged with the reading's
    device id and belongs to the measurement ["cooling_tower"]; unless the
    reading's timestamp is a text, its time is the time of the write: a
    numeric timestamp, as the device sends it, is never used. *)
Theorem point_of_validated_reading (data : gmap string pyval) (now : string) (v : validated) :
  validate data = Ok v ->
  (forall s, dict_get data "timestamp" <> PStr s) ->
  exists p,
    build_point iso_valid (output_dict (process_data data now)) = Ok p
    /\ Point.measurement p = "cooling_tower"
    /\ Point.device_id p = dict_get data "device_id"
    /\ Point.time p = WriteTime.
Proof.
  intros Hv Hts. rewrite (process_data_validated data now v Hv).
  cbn [output_dict].
  destruct (build_point_processed iso_valid (assemble now v)) as (fields & Hp & _).
  eexists. split; [exact Hp|].
  unfold dict_get_default, dict_get.
  destruct (processed_dict_lookups (assemble now v)) as (_ & Hd & Ht & _).
  rewrite Hd, Ht. cbn [Point.measurement Point.device_id Point.time default from_option id].
  destruct (assemble_inputs_ids now v) as (-> & ->).
  destruct (validate_inv data v Hv) as (_ & _ & -> & -> & _).
  split; [reflexivity|]. split; [reflexivity|].
  unfold point_time_of.
  destruct (dict_get data "timestamp") as [| | | |s|] eqn:E;
    try (destruct (truthy _); reflexivity).
  now destruct (Hts s).
Qed.

(** X18: every dictionary of a processed reading passes
    [validate_sensor_data], whereas a dictionary without the key
    ["water_flow_lpm"], such as a reading in the device's own format, does
    not. *)
Theorem validate_sensor_data_on_output (r : ProcessedReading.t) :
  validate_sensor_data (processed_dict r) = Ok true
  /\ (forall data : gmap string pyval,
        data !! "water_flow_lpm" = None -> validate_sensor_data data = Ok false).
Proof.
  split.
  - destruct (processed_dict_lookups r)
      as (_ & _ & _ & _ & H1 & H2 & H3 & H4 & H5 & _).
    unfold validate_sensor_data. cbn [sensor_fields_valid].
    rewrite H1, H2, H3, H4, H5. reflexivity.
  - intros data H. unfold validate_sensor_data. cbn [sensor_fields_valid].
    now rewrite H.
Qed.

End SinkFacts.

(** * The model at concrete readings *)

#[local] Existing Instance model_runtime.

(** Closed facts, decided by evaluation. *)
Ltac closed := vm_compute; first [reflexivity | discriminate | tauto].

(** The documented reading is processed without calculation errors. *)
Example documented_reading_processed :
  exists r, process_data documented_reading clock = Processed r
            /\ ProcessedReading.device_id r = PStr "ESP32_TOWER_01"
            /\ ProcessedReading.calculation_errors r = []
            /\ ProcessedReading.data_quality r = "excellent"
            /\ ProcessedReading.processing_status r = "success".
Proof. eexists. split; [vm_compute; reflexivity|]. vm_compute. tauto. Qed.

(** The tolerance is decided on the binary64 difference: [28.1 - 28.0] is
    slightly above [0.1], so the capacity of such a drop is computed and the
    drop counts for the quality, while the reversed drop is rejected. *)
Example tolerance_boundary_in_binary64 :
  (0.1 <? 28.1 - 28.0) = true
  /\ calculate_cooling_capacity 600 28.1 28.0 = Ok (600 / 60 * 4.186 * (28.1 - 28.0))
  /\ (exists msg, calculate_cooling_capacity 600 28.0 28.1 = Raise (ValueError msg))
  /\ calculate_cooling_capacity 600 0.1 0 = Ok 0
  /\ assess_data_quality 28.1 28.0 0.5 50 = "good".
Proof.
  split; [closed|]. split; [closed|]. split; [eexists; closed|]. split; closed.
Qed.

(** A reading with an integer beyond the range of a float ends in a
    [processing_error], whatever else it holds. *)
Example huge_integer_is_processing_error :
  overflowing_names sentinel_and_huge_reading = ["water_temp_in"]
  /\ process_data sentinel_and_huge_reading clock
     = Failed (ErrorRecord.mk "processing_error"
                 "Data processing error: int too large to convert to float" clock "failed").
Proof. split; closed. Qed.

Lemma calculations_fault_isolated_witness :
  (exists v,
     validate zero_flow_reading = Ok v
     /\ (exists w, wet_bulb_stull (v_air_temp_in v) (v_air_humidity_in v) = Ok w)
     /\ (exists e, calculate_cooling_capacity (v_water_flow_lpm v) (v_water_temp_in v)
                     (v_water_temp_out v) = Raise e)
     /\ exists r,
          process_data zero_flow_reading clock = Processed r
          /\ ProcessedReading.wet_bulb_temp_in r
             = stored (wet_bulb_stull (v_air_temp_in v) (v_air_humidity_in v))
          /\ ProcessedReading.cooling_capacity r
             = stored (calculate_cooling_capacity (v_water_flow_lpm v) (v_water_temp_in v)
                         (v_water_temp_out v))
          /\ (forall w,
                wet_bulb_stull (v_air_temp_in v) (v_air_humidity_in v) = Ok w ->
                ProcessedReading.cooling_efficiency r
                = stored (calculate_cooling_tower_efficiency (v_water_temp_in v)
                            (v_water_temp_out v) w))
          /\ (forall e,
                wet_bulb_stull (v_air_temp_in v) (v_air_humidity_in v) = Raise e ->
                ProcessedReading.cooling_efficiency r = None))
  /\ (exists v,
        validate hot_air_flowing_reading = Ok v
        /\ (exists e, wet_bulb_stull (v_air_temp_in v) (v_air_humidity_in v) = Raise e)
        /\ (exists c, calculate_cooling_capacity (v_water_flow_lpm v) (v_water_temp_in v)
                        (v_water_temp_out v) = Ok c)
        /\ exists r,
             process_data hot_air_flowing_reading clock = Processed r
             /\ ProcessedReading.wet_bulb_temp_in r
                = stored (wet_bulb_stull (v_air_temp_in v) (v_air_humidity_in v))
             /\ ProcessedReading.cooling_capacity r
                = stored (calculate_cooling_capacity (v_water_flow_lpm v) (v_water_temp_in v)
                            (v_water_temp_out v))
             /\ (forall w,
                   wet_bulb_stull (v_air_temp_in v) (v_air_humidity_in v) = Ok w ->
                   ProcessedReading.cooling_efficiency r
                   = stored (calculate_cooling_tower_efficiency (v_water_temp_in v)
                               (v_water_temp_out v) w))
             /\ (forall e,
                   wet_bulb_stull (v_air_temp_in v) (v_air_humidity_in v) = Raise e ->
                   ProcessedReading.cooling_efficiency r = None)).
Proof.
  split.
  - eexists. split; [vm_compute; reflexivity|].
    split; [eexists; vm_compute; reflexivity|].
    split; [eexists; vm_compute; reflexivity|].
    apply (calculations_fault_isolated zero_flow_reading clock). vm_compute. reflexivity.
  - eexists. split; [vm_compute; reflexivity|].
    split; [eexists; vm_compute; reflexivity|].
    split; [eexists; vm_compute; reflexivity|].
    apply (calculations_fault_isolated hot_air_flowing_reading clock). vm_compute. reflexivity.
Defined.

Lemma status_success_iff_no_errors_witness :
  exists r,
    process_data documented_reading clock = Processed r
    /\ (ProcessedReading.processing_status r = "success"
        <-> ProcessedReading.calculation_errors r = [])
    /\ (ProcessedReading.calculation_errors r <> [] ->
        ProcessedReading.processing_status r = "partial_success").
Proof.
  eexists. split; [vm_compute; reflexivity|].
  apply (status_success_iff_no_errors documented_reading clock). vm_compute. reflexivity.
Defined.

Lemma wet_bulb_failure_degrades_witness :
  exists v e,
    validate hot_air_reading = Ok v
    /\ wet_bulb_stull (v_air_temp_in v) (v_air_humidity_in v) = Raise e
    /\ exists r rest,
         process_data hot_air_reading clock = Processed r
         /\ ProcessedReading.wet_bulb_temp_in r = None
         /\ ProcessedReading.cooling_efficiency r = None
         /\ ProcessedReading.calculation_errors r
            = ("wet_bulb_calculation_error: " ++ str_exn e)
              :: "cooling_efficiency_calculation_error: Cannot calculate efficiency: wet bulb temperature unavailable"
              :: rest
         /\ mentions "wet bulb temperature unavailable"
              "cooling_efficiency_calculation_error: Cannot calculate efficiency: wet bulb temperature unavailable"
            = true
         /\ ProcessedReading.cooling_capacity r
            = stored (calculate_cooling_capacity (v_water_flow_lpm v) (v_water_temp_in v)
                        (v_water_temp_out v))
         /\ ProcessedReading.processing_status r = "partial_success".
Proof.
  eexists. eexists.
  split; [vm_compute; reflexivity|].
  split; [vm_compute; reflexivity|].
  apply (wet_bulb_failure_degrades hot_air_reading clock); vm_compute; reflexivity.
Defined.

(** C3, as stated, fails on [hot_air_reading]: validation passes and the
    wet-bulb calculation raises, but no entry of [calculation_errors] is the
    text ["cooling_efficiency_calculation_error: wet bulb temperature unavailable"]
    (the entry reads [... Cannot calculate efficiency: wet bulb ...]), and
    [cooling_capacity] is null because the capacity calculation fails too. *)
Lemma wet_bulb_failure_message_counterexample :
  exists v e r,
    validate hot_air_reading = Ok v
    /\ wet_bulb_stull (v_air_temp_in v) (v_air_humidity_in v) = Raise e
    /\ process_data hot_air_reading clock = Processed r
    /\ ~ In "cooling_efficiency_calculation_error: wet bulb temperature unavailable"
           (ProcessedReading.calculation_errors r)
    /\ ProcessedReading.cooling_capacity r = None.
Proof.
  eexists. eexists. eexists.
  split; [vm_compute; reflexivity|].
  split; [vm_compute; reflexivity|].
  split; [vm_compute; reflexivity|].
  split; [|vm_compute; reflexivity].
  vm_compute. intros [H|[H|[H|[]]]]; discriminate H.
Qed.

Lemma efficiency_edge_case_policy_witness :
  (exists msg, calculate_cooling_tower_efficiency 26 28 22.8 = Raise (ValueError msg))
  /\ calculate_cooling_tower_efficiency 28 27.95 22.8 = Ok 0
  /\ calculate_cooling_tower_efficiency 20 18 22.8 = Ok 0
  /\ (exists r, calculate_cooling_tower_efficiency 28 26.6875 22.8 = Ok r
                /\ limited_to_0_100 ((28 - 26.6875) / (28 - 22.8) * 100) r)
  /\ (exists r, calculate_cooling_tower_efficiency 28 20 22.8 = Ok r
                /\ (r <? 0) = false /\ (100 <? r) = false
                /\ is_nan r = is_infinity (28 - 20) && is_infinity (28 - 22.8)
                /\ (is_nan r = false -> within 0 100 r)).
Proof.
  destruct (efficiency_edge_case_policy 26 28 22.8) as (H1 & _).
  destruct (efficiency_edge_case_policy 28 27.95 22.8) as (_ & H2 & _).
  destruct (efficiency_edge_case_policy 20 18 22.8) as (_ & _ & H3 & _).
  destruct (efficiency_edge_case_policy 28 26.6875 22.8) as (_ & _ & _ & H4 & _).
  destruct (efficiency_edge_case_policy 28 20 22.8) as (_ & _ & _ & _ & H5).
  split; [apply H1; closed|].
  split; [apply H2; closed|].
  split; [apply H3; closed|].
  split; [apply H4; closed|].
  apply H5; closed.
Defined.

(** C4, as stated, fails for an infinite inlet temperature, which the
    validation accepts: the drop exceeds the tolerance and the wet-bulb
    temperature is below the inlet temperature, yet the result is NaN, which
    does not lie in [[0,100]].  The same happens for finite temperatures
    whose differences overflow. *)
Lemma efficiency_not_a_number_counterexample :
  (exists v, validate infinite_inlet_reading = Ok v /\ v_water_temp_in v = infinity)
  /\ (0.1 <? infinity - 26.6875) = true
  /\ (22.8 <? infinity) = true
  /\ calculate_cooling_tower_efficiency infinity 26.6875 22.8 = Ok nan
  /\ (0 <=? nan) = false
  /\ (nan <=? 100) = false
  /\ (0.1 <? 1e308 - -1e308) = true
  /\ (-1e308 <? 1e308) = true
  /\ calculate_cooling_tower_efficiency 1e308 (-1e308) (-1e308) = Ok nan.
Proof.
  split; [eexists; split; vm_compute; reflexivity|].
  repeat split; vm_compute; reflexivity.
Qed.


Lemma wet_bulb_stull_contract_witness :
  wet_bulb_stull 28.6 150
  = Raise (ValueError ("Cannot calculate wet bulb temperature: "
                       ++ "Relative humidity must be between 0-100%, got "
                       ++ float_str 150 ++ "%"))
  /\ wet_bulb_stull 128.6 49.5
     = Raise (ValueError ("Cannot calculate wet bulb temperature: "
                          ++ "Temperature must be between -50°C to 60°C, got "
                          ++ float_str 128.6 ++ "°C"))
  /\ (exists msg, wet_bulb_stull (-60) 150 = Raise (ValueError msg))
  /\ wet_bulb_stull 28.6 49.5
     = Ok (28.6 * math_atan (0.151977 * sqrt (49.5 + 8.313659))
           + math_atan (28.6 + 49.5)
           - math_atan (49.5 - 1.676331)
           + 0.00391838 * float_pow 49.5 1.5 * math_atan (0.023101 * 49.5)
           - 4.686035).
Proof.
  destruct (wet_bulb_stull_contract 28.6 150) as (H1 & _).
  destruct (wet_bulb_stull_contract 128.6 49.5) as (_ & H2 & _).
  destruct (wet_bulb_stull_contract (-60) 150) as (_ & _ & H3 & _).
  destruct (wet_bulb_stull_contract 28.6 49.5) as (_ & _ & _ & H4).
  split; [apply H1; right; closed|].
  split; [apply H2; [split; closed | right; closed]|].
  split; [apply H3; left; closed|].
  apply H4; split; closed.
Defined.

Lemma validation_reports_one_class_witness :
  (let msg := "Missing required fields: "
              ++ join_names (missing_names missing_and_sentinel_reading) in
   process_data missing_and_sentinel_reading clock
   = Failed (ErrorRecord.mk "data_validation_error" msg clock "failed")
   /\ forall name, In name (missing_names missing_and_sentinel_reading) ->
                   mentions name msg = true)
  /\ (let msg := "Invalid sensor data (value = -999): "
                 ++ join_names (invalid_names two_invalid_reading) in
      process_data two_invalid_reading clock
      = Failed (ErrorRecord.mk "data_validation_error" msg clock "failed")
      /\ forall name, In name (invalid_names two_invalid_reading) ->
                      mentions name msg = true)
  /\ process_data sentinel_and_huge_reading clock
     = Failed (ErrorRecord.mk "processing_error"
                 "Data processing error: int too large to convert to float" clock "failed").
Proof.
  destruct (validation_reports_one_class missing_and_sentinel_reading clock) as (H1 & _).
  destruct (validation_reports_one_class two_invalid_reading clock) as (_ & H2 & _).
  destruct (validation_reports_one_class sentinel_and_huge_reading clock) as (_ & _ & H3).
  split; [|split].
  - apply H1; vm_compute; [reflexivity | discriminate].
  - apply H2; vm_compute; [reflexivity | reflexivity | discriminate].
  - apply H3; vm_compute; discriminate.
Defined.

(** C6, as stated, fails on [missing_and_sentinel_reading]: the inlet water
    temperature is missing and the flow carries the sentinel, yet the message
    of the error record is the list of the missing fields alone and does not
    mention the invalid field, under either of its names.  It also fails on
    a reading with a missing field and an integer too large for a float, which
    is not reported as a [data_validation_error] at all. *)
Lemma both_classes_counterexample :
  missing_names missing_and_sentinel_reading = ["water_temp_in"]
  /\ invalid_names missing_and_sentinel_reading = ["water_flow_lpm"]
  /\ process_data missing_and_sentinel_reading clock
     = Failed (ErrorRecord.mk "data_validation_error"
                 "Missing required fields: water_temp_in" clock "failed")
  /\ mentions "water_flow_lpm" "Missing required fields: water_temp_in" = false
  /\ mentions "flow_rate" "Missing required fields: water_temp_in" = false
  /\ missing_names missing_and_huge_reading = ["water_temp_in"]
  /\ invalid_names missing_and_huge_reading = ["water_flow_lpm"]
  /\ process_data missing_and_huge_reading clock
     = Failed (ErrorRecord.mk "processing_error"
                 "Data processing error: int too large to convert to float" clock "failed").
Proof. repeat split; vm_compute; reflexivity. Qed.

Lemma sentinel_is_validation_error_witness :
  (overflowing_names two_invalid_reading = [] ->
   exists msg,
     validate two_invalid_reading = Raise (ValueError msg)
     /\ process_data two_invalid_reading clock
        = Failed (ErrorRecord.mk "data_validation_error" msg clock "failed")
     /\ (missing_names two_invalid_reading = [] ->
         msg = "Invalid sensor data (value = -999): "
               ++ join_names (invalid_names two_invalid_reading)
         /\ mentions "water_flow_lpm" msg = true)
     /\ (missing_names two_invalid_reading <> [] ->
         msg = "Missing required fields: "
               ++ join_names (missing_names two_invalid_reading)))
  /\ (overflowing_names two_invalid_reading <> [] ->
      process_data two_invalid_reading clock
      = Failed (ErrorRecord.mk "processing_error"
                  "Data processing error: int too large to convert to float" clock "failed")).
Proof.
  apply (sentinel_is_validation_error two_invalid_reading clock
           "flow_rate" "water_flow_lpm" (-999)).
  - vm_compute. tauto.
  - vm_compute. reflexivity.
  - reflexivity.
Defined.

(** C7, as stated, fails on [anonymous_sentinel_reading]: the humidity is
    exactly [-999], the record is a [data_validation_error], but its message
    lists the missing [device_id] and does not mention the humidity field,
    under either of its names.  It also fails on [sentinel_and_huge_reading]:
    the flow is exactly [-999], but the record is a [processing_error]. *)
Lemma sentinel_not_named_counterexample :
  py_float (dict_get anonymous_sentinel_reading "air_humidity_inlet") = Ok (-999)
  /\ process_data anonymous_sentinel_reading clock
     = Failed (ErrorRecord.mk "data_validation_error"
                 "Missing required fields: device_id" clock "failed")
  /\ mentions "air_humidity_in" "Missing required fields: device_id" = false
  /\ mentions "air_humidity_inlet" "Missing required fields: device_id" = false
  /\ py_float (dict_get sentinel_and_huge_reading "flow_rate") = Ok (-999)
  /\ process_data sentinel_and_huge_reading clock
     = Failed (ErrorRecord.mk "processing_error"
                 "Data processing error: int too large to convert to float" clock "failed").
Proof. repeat split; vm_compute; reflexivity. Qed.

Lemma zero_flow_is_partial_success_witness :
  exists v r,
    validate zero_flow_reading = Ok v
    /\ (v_water_flow_lpm v =? 0) = true
    /\ process_data zero_flow_reading clock = Processed r
    /\ ProcessedReading.cooling_capacity r = None
    /\ In ("cooling_capacity_calculation_error: "
           ++ "Cannot calculate cooling capacity: Water flow must be positive, got "
           ++ float_str (v_water_flow_lpm v) ++ " L/min")
         (ProcessedReading.calculation_errors r)
    /\ ProcessedReading.processing_status r = "partial_success".
Proof.
  apply (zero_flow_is_partial_success zero_flow_reading clock 0.0 49.5).
  - vm_compute. discriminate.
  - vm_compute. reflexivity.
  - reflexivity.
  - exists 28. split; vm_compute; reflexivity.
  - exists 26.6875. split; vm_compute; reflexivity.
  - exists 28.6. split; vm_compute; reflexivity.
  - vm_compute. reflexivity.
  - split; closed.
Defined.

(** ** Instances of the further properties *)

Lemma range_checks_reject_witness :
  process_data negative_flow_reading clock
  = Failed (ErrorRecord.mk "data_validation_error"
              ("Invalid water flow rate: " ++ float_str (-2.5)) clock "failed")
  /\ process_data saturated_reading clock
     = Failed (ErrorRecord.mk "data_validation_error"
                 ("Invalid humidity: " ++ float_str 150 ++ "%") clock "failed").
Proof.
  destruct (range_checks_reject negative_flow_reading clock (-2.5) 150) as (H1 & _);
    try (vm_compute; reflexivity).
  destruct (range_checks_reject saturated_reading clock 5.555555 150) as (_ & H2);
    try (vm_compute; reflexivity).
  split; [apply H1; closed | apply H2; [closed | right; closed]].
Defined.

Lemma wet_bulb_null_iff_air_temp_out_of_range_witness :
  exists v,
    validate hot_air_reading = Ok v
    /\ exists r,
         process_data hot_air_reading clock = Processed r
         /\ (ProcessedReading.wet_bulb_temp_in r = None
             <-> outside (-50) 60 (v_air_temp_in v)).
Proof.
  eexists. split; [vm_compute; reflexivity|].
  apply (wet_bulb_null_iff_air_temp_out_of_range hot_air_reading clock).
  vm_compute. reflexivity.
Defined.

Lemma success_iff_inputs_in_domain_witness :
  exists v,
    validate documented_reading = Ok v
    /\ exists r,
         process_data documented_reading clock = Processed r
         /\ (ProcessedReading.processing_status r = "success"
             <-> (v_air_temp_in v <? -50) = false /\ (60 <? v_air_temp_in v) = false
                 /\ (v_water_flow_lpm v <=? 0) = false
                 /\ (v_water_temp_in v - v_water_temp_out v <? -0.1) = false)
         /\ (ProcessedReading.processing_status r = "success"
             \/ ProcessedReading.processing_status r = "partial_success").
Proof.
  eexists. split; [vm_compute; reflexivity|].
  apply (success_iff_inputs_in_domain documented_reading clock).
  vm_compute. reflexivity.
Defined.

Lemma errors_account_for_null_fields_witness :
  exists r,
    process_data hot_air_reading clock = Processed r
    /\ length (ProcessedReading.calculation_errors r) = null_count r
    /\ (ProcessedReading.wet_bulb_temp_in r = None ->
        ProcessedReading.cooling_efficiency r = None)
    /\ (ProcessedReading.processing_status r = "success"
        <-> ProcessedReading.wet_bulb_temp_in r <> None
            /\ ProcessedReading.cooling_efficiency r <> None
            /\ ProcessedReading.cooling_capacity r <> None).
Proof.
  eexists. split; [vm_compute; reflexivity|].
  apply (errors_account_for_null_fields hot_air_reading clock). vm_compute. reflexivity.
Defined.

Lemma point_of_validated_reading_witness :
  exists p,
    build_point (fun _ => true) (output_dict (process_data documented_reading clock)) = Ok p
    /\ Point.measurement p = "cooling_tower"
    /\ Point.device_id p = dict_get documented_reading "device_id"
    /\ Point.time p = WriteTime.
Proof.
  apply (point_of_validated_reading (fun _ => true) documented_reading clock
           (mk_validated (PStr "ESP32_TOWER_01") (PInt 31729) 5.555555 28
              26.6875 28.6 49.5)).
  - vm_compute. reflexivity.
  - intros s. vm_compute. discriminate.
Defined.
